(** * go-dns: a command-line DNS lookup utility (src/main.go)

    Shallow embedding of [main.go] and proofs about its dispatcher, its
    per-record-type lookups and its presenter.

    The program talks to two outside collaborators: the operating system's
    stub resolver (Go package [net]) and an upstream DNS server reached
    through the client library [github.com/miekg/dns].  Their answers are
    not under the program's control, so they are an arbitrary, history
    dependent oracle here; every call to them is recorded in a trace.  The
    pure helpers of the Go standard library the program relies on
    ([net.ParseIP], [IP.To4], [IP.To16], the [fmt] verbs) are modelled
    after the library sources. *)

From Stdlib Require Import List String Ascii NArith ZArith Bool Lia.
From Stdlib Require Import DecimalString.
Import ListNotations.

Local Open Scope string_scope.
Local Open Scope list_scope.

(** ** Go strings

    A Go string is a sequence of bytes; so is a Rocq [string]. *)

Definition byte_of (c : ascii) : N := N_of_ascii c.

Definition nl : string := String "010"%char EmptyString.

Definition is_empty (s : string) : bool :=
  match s with EmptyString => true | String _ _ => false end.

(** [s[0] == c], false on the empty string, and [s[1:]]. *)
Definition starts_with (c : ascii) (s : string) : bool :=
  match s with
  | EmptyString => false
  | String d _ => Ascii.eqb d c
  end.

Definition tail (s : string) : string :=
  match s with
  | EmptyString => EmptyString
  | String _ rest => rest
  end.

(** [strings.IndexByte]-style split: [Some (before, after)] at the first
    occurrence of [c], [None] when [c] does not occur. *)
Fixpoint cut (c : ascii) (s : string) : option (string * string) :=
  match s with
  | EmptyString => None
  | String d rest =>
      if Ascii.eqb d c then Some (EmptyString, rest)
      else match cut c rest with
           | Some (before, after) => Some (String d before, after)
           | None => None
           end
  end.

(** ** Package fmt: the verbs the program uses *)

Module fmt.

(** [%d] of an unsigned integer. *)
Definition d (n : N) : string := NilZero.string_of_uint (N.to_uint n).

Definition hex_digit (n : N) : ascii :=
  if (n <? 10)%N then ascii_of_N (48 + n) else ascii_of_N (87 + n).

(** [%x] of a string: two lower-case hexadecimal digits per byte. *)
Fixpoint x (s : string) : string :=
  match s with
  | EmptyString => EmptyString
  | String c rest =>
      String (hex_digit (byte_of c / 16))
        (String (hex_digit (byte_of c mod 16)) (x rest))
  end.

End fmt.

(** ** Package net: IP literals

    [IP] is Go's [net.IP], a byte slice; [None] is the nil slice. *)

Module net.

Definition IP := option (list N).

Definition IPv4len : nat := 4.
Definition IPv6len : nat := 16.

Definition v4InV6Prefix : list N := [0;0;0;0;0;0;0;0;0;0;255;255]%N.

Definition isZeros (p : list N) : bool := forallb (N.eqb 0) p.

(** [net.IPv4(a, b, c, d)]: the 16-byte form of an IPv4 address. *)
Definition IPv4 (a b c d : N) : list N := v4InV6Prefix ++ [a; b; c; d].

(** [func (ip IP) To4() IP] *)
Definition To4 (ip : IP) : IP :=
  match ip with
  | None => None
  | Some b =>
      if (List.length b =? IPv4len)%nat then Some b
      else if (List.length b =? IPv6len)%nat
              && isZeros (firstn 10 b)
              && (nth 10 b 0 =? 255)%N
              && (nth 11 b 0 =? 255)%N
      then Some (firstn 4 (skipn 12 b))
      else None
  end.

(** [func (ip IP) To16() IP] *)
Definition To16 (ip : IP) : IP :=
  match ip with
  | None => None
  | Some b =>
      if (List.length b =? IPv4len)%nat
      then Some (IPv4 (nth 0 b 0) (nth 1 b 0) (nth 2 b 0) (nth 3 b 0))%N
      else if (List.length b =? IPv6len)%nat then Some b
      else None
  end.

(** *** [netip.ParseAddr], which [net.ParseIP] calls

    The parser of the Go standard library (package [net/netip], as of
    Go 1.22): dotted-decimal IPv4 without leading zeros, and IPv6 with
    one optional [::], an optional trailing dotted-decimal part and an
    optional zone, which [net.ParseIP] refuses. *)

Inductive Addr :=
| Addr4 (b : list N)
| Addr6 (b : list N) (zone : string).

Definition As16 (a : Addr) : list N :=
  match a with
  | Addr4 b => v4InV6Prefix ++ b
  | Addr6 b _ => b
  end.

Definition Zone (a : Addr) : string :=
  match a with
  | Addr4 _ => EmptyString
  | Addr6 _ z => z
  end.

Definition is_digit (c : ascii) : bool :=
  (48 <=? byte_of c)%N && (byte_of c <=? 57)%N.

(** The loop of [parseIPv4Fields] over [s = in[off:end]]: [first] is
    [i == 0], [prev_dot] is [s[i-1] == '.'], and [fields] holds the
    octets stored so far, [fields[0 .. pos)]. *)
Fixpoint parseIPv4Fields_loop (s : string) (first prev_dot : bool)
    (val : N) (pos digLen : nat) (fields : list N)
  : option (N * nat * list N) :=
  match s with
  | EmptyString => Some (val, pos, fields)
  | String c rest =>
      if is_digit c then
        if (digLen =? 1)%nat && (val =? 0)%N then None
        else
          let val' := (val * 10 + (byte_of c - 48))%N in
          if (255 <? val')%N then None
          else parseIPv4Fields_loop rest false false val' pos (S digLen) fields
      else if Ascii.eqb c "."%char then
        if first || is_empty rest || prev_dot then None
        else if (pos =? 3)%nat then None
        else parseIPv4Fields_loop rest false true 0%N (S pos) 0 (fields ++ [val])
      else None
  end.

Definition parseIPv4Fields (s : string) : option (list N) :=
  match parseIPv4Fields_loop s true false 0%N 0 0 [] with
  | None => None
  | Some (val, pos, fields) =>
      if (pos <? 3)%nat then None else Some (fields ++ [val])
  end.

Definition parseIPv4 (s : string) : option Addr :=
  match parseIPv4Fields s with
  | None => None
  | Some fields => Some (Addr4 fields)
  end.

Definition hexval (c : ascii) : option N :=
  let n := byte_of c in
  if (48 <=? n)%N && (n <=? 57)%N then Some (n - 48)%N
  else if (97 <=? n)%N && (n <=? 102)%N then Some (n - 97 + 10)%N
  else if (65 <=? n)%N && (n <=? 70)%N then Some (n - 65 + 10)%N
  else None.

(** The inner loop of [parseIPv6] reading one hexadecimal group: the
    result is [off], [acc] and [s[off:]].  [acc] is a uint32 in the
    source; it never exceeds 20 bits here, so no wrap-around is
    written. *)
Fixpoint parseIPv6_group (s : string) (off : nat) (acc : N)
  : option (nat * N * string) :=
  match s with
  | EmptyString => Some (off, acc, s)
  | String c rest =>
      match hexval c with
      | None => Some (off, acc, s)
      | Some dgt =>
          let acc' := (N.shiftl acc 4 + dgt)%N in
          if (3 <? off)%nat then None
          else if (65535 <? acc')%N then None
          else parseIPv6_group rest (S off) acc'
      end
  end.

(** The outer loop [for i < 16] of [parseIPv6].  Every turn advances
    [i] by two at least, so eight turns are enough; [ip] holds the
    bytes stored so far, [ip[0 .. i)].  The result is the rest of the
    string, [i], [ellipsis] and [ip]. *)
Fixpoint parseIPv6_loop (turns : nat) (s : string) (i ellipsis : Z)
    (ip : list N) : option (string * Z * Z * list N) :=
  if negb (i <? 16)%Z then Some (s, i, ellipsis, ip) else
  match turns with
  | O => None
  | S turns' =>
      match parseIPv6_group s 0 0%N with
      | None => None
      | Some (off, acc, rest) =>
          if (off =? 0)%nat then None
          else if starts_with "."%char rest then
            (* might be in trailing IPv4 *)
            if (ellipsis <? 0)%Z && negb (i =? 12)%Z then None
            else if (16 <? i + 4)%Z then None
            else match parseIPv4Fields s with
                 | None => None
                 | Some f => Some (EmptyString, (i + 4)%Z, ellipsis, ip ++ f)
                 end
          else
            (* save this 16-bit chunk *)
            let ip' := ip ++ [N.shiftr acc 8; N.land acc 255] in
            let i' := (i + 2)%Z in
            if is_empty rest then Some (EmptyString, i', ellipsis, ip')
            else if negb (starts_with ":"%char rest) then None
            else if (String.length rest =? 1)%nat then None
            else
              let rest1 := tail rest in
              if starts_with ":"%char rest1 then
                (* ellipsis *)
                if (0 <=? ellipsis)%Z then None
                else
                  let rest2 := tail rest1 in
                  if is_empty rest2 then Some (EmptyString, i', i', ip')
                  else parseIPv6_loop turns' rest2 i' i' ip'
              else parseIPv6_loop turns' rest1 i' ellipsis ip'
      end
  end.

Definition parseIPv6 (input : string) : option Addr :=
  match
    match cut "%"%char input with
    | None => Some (input, EmptyString)
    | Some (s, zone) => if is_empty zone then None else Some (s, zone)
    end
  with
  | None => None
  | Some (s, zone) =>
      let leading :=
        (2 <=? String.length s)%nat
        && starts_with ":"%char s && starts_with ":"%char (tail s) in
      let s1 := if leading then tail (tail s) else s in
      let ellipsis0 := if leading then 0%Z else (-1)%Z in
      if leading && is_empty s1 then Some (Addr6 (repeat 0%N 16) zone)
      else
        match parseIPv6_loop 8 s1 0%Z ellipsis0 [] with
        | None => None
        | Some (s2, i, ellipsis, ip) =>
            if negb (is_empty s2) then None
            else if (i <? 16)%Z then
              if (ellipsis <? 0)%Z then None
              else
                let e := Z.to_nat ellipsis in
                let n := Z.to_nat (16 - i) in
                Some (Addr6 (firstn e ip ++ repeat 0%N n ++ skipn e ip) zone)
            else if (0 <=? ellipsis)%Z then None
            else Some (Addr6 ip zone)
        end
  end.

Fixpoint ParseAddr_scan (s rest : string) : option Addr :=
  match rest with
  | EmptyString => None
  | String c rest' =>
      if Ascii.eqb c "."%char then parseIPv4 s
      else if Ascii.eqb c ":"%char then parseIPv6 s
      else if Ascii.eqb c "%"%char then None
      else ParseAddr_scan s rest'
  end.

Definition ParseAddr (s : string) : option Addr := ParseAddr_scan s s.

(** [func ParseIP(s string) IP] *)
Definition ParseIP (s : string) : IP :=
  match ParseAddr s with
  | None => None
  | Some a => if is_empty (Zone a) then Some (As16 a) else None
  end.

End net.

(** ** Errors, the outside world and the state of a run *)

(** A Go [error] value.  [LibError] is an error handed back by package
    [net] or by the DNS client library; [Errorf] is one that [main.go]
    makes itself with [fmt.Errorf]. *)
Inductive error :=
| LibError (msg : string)
| Errorf (msg : string).

(** [err.Error()], which is what [%v] prints. *)
Definition Error (e : error) : string :=
  match e with
  | LibError msg => msg
  | Errorf msg => msg
  end.

Inductive result (A : Type) :=
| Err (e : error)
| Ok (a : A).
Arguments Err {A} e.
Arguments Ok {A} a.

Module dns.

Record SOA := { soa_Ns : string; soa_Mbox : string; soa_Serial : N;
                soa_Refresh : N; soa_Retry : N; soa_Expire : N;
                soa_Minttl : N }.
Record SRV := { srv_Priority : N; srv_Weight : N; srv_Port : N;
                srv_Target : string }.
Record CERT := { cert_Type : N; cert_KeyTag : N; cert_Algorithm : N;
                 cert_Certificate : string }.
Record DNAME := { dname_Target : string }.

(** [dns.RR]: a decoded resource record, tagged with its type.  The
    program looks at four types only; every other one is [RR_other]
    with its type code. *)
Inductive RR :=
| RR_SOA (r : SOA)
| RR_SRV (r : SRV)
| RR_CERT (r : CERT)
| RR_DNAME (r : DNAME)
| RR_other (rrtype : N).

(** The fields of a reply [dns.Msg] that the program reads. *)
Record Msg := { Rcode : Z; Answer : list RR }.

Definition RcodeSuccess : Z := 0.

End dns.

Record MX := { mx_Host : string; mx_Pref : N }.
Record NS := { ns_Host : string }.

(** One call to the system resolver or one exchange with the upstream
    server. *)
Inductive Call :=
| CallLookupHost (host : string)
| CallLookupCNAME (host : string)
| CallLookupMX (name : string)
| CallLookupNS (name : string)
| CallLookupTXT (name : string)
| CallLookupAddr (addr : string)
| CallExchange (qname : string) (qtype : N) (address : string).

(** What the outside answers: a failure with its message, or a value. *)
Inductive reply (A : Type) :=
| Failed (msg : string)
| Answered (a : A).
Arguments Failed {A} msg.
Arguments Answered {A} a.

(** The outside world.  An answer may depend on every call made before
    (the first argument), so two calls with the same arguments need not
    agree.  [Fqdn] and [StringToType] are the client library's
    [dns.Fqdn] and [dns.StringToType[...]]; nothing is assumed about
    them. *)
Record World := {
  sysLookupHost : list Call -> string -> reply (list string);
  sysLookupCNAME : list Call -> string -> reply string;
  sysLookupMX : list Call -> string -> reply (list MX);
  sysLookupNS : list Call -> string -> reply (list NS);
  sysLookupTXT : list Call -> string -> reply (list string);
  sysLookupAddr : list Call -> string -> reply (list string);
  sysExchange : list Call -> string -> N -> string -> reply dns.Msg;
  Fqdn : string -> string;
  StringToType : string -> N
}.

(** The state of a run: the calls made so far, oldest first, and what
    has been written to standard output and to standard error. *)
Record State := { calls : list Call; stdout : string; stderr : string }.

Definition initial : State :=
  {| calls := []; stdout := EmptyString; stderr := EmptyString |}.

(** A computation either returns or ends the process ([os.Exit]). *)
Inductive outcome (A : Type) :=
| Ret (a : A)
| Exited (code : Z).
Arguments Ret {A} a.
Arguments Exited {A} code.

Definition M (A : Type) : Type := State -> outcome A * State.

Definition ret {A} (a : A) : M A := fun st => (Ret a, st).

Definition bind {A B} (m : M A) (k : A -> M B) : M B :=
  fun st =>
    match m st with
    | (Ret a, st') => k a st'
    | (Exited code, st') => (Exited code, st')
    end.

Declare Scope go_scope.
Delimit Scope go_scope with go.
Notation "x <- m ;; k" := (bind m (fun x => k))
  (at level 61, m at next level, right associativity) : go_scope.
Notation "' pat <- m ;; k" := (bind m (fun x => match x with pat => k end))
  (at level 61, pat pattern, m at next level, right associativity) : go_scope.
Notation "m ;; k" := (bind m (fun _ => k))
  (at level 61, right associativity) : go_scope.
Local Open Scope go_scope.

(** [for _, x := range xs { body }] with an effectful body. *)
Fixpoint range {A} (xs : list A) (body : A -> M unit) : M unit :=
  match xs with
  | [] => ret tt
  | x :: xs' => body x ;; range xs' body
  end.

Definition add_call (c : Call) (st : State) : State :=
  {| calls := calls st ++ [c]; stdout := stdout st; stderr := stderr st |}.

Definition add_stdout (s : string) (st : State) : State :=
  {| calls := calls st; stdout := stdout st ++ s; stderr := stderr st |}.

Definition add_stderr (s : string) (st : State) : State :=
  {| calls := calls st; stdout := stdout st; stderr := stderr st ++ s |}.

(** [fmt.Printf] and [fmt.Fprintf(os.Stderr, ...)] of an already
    formatted string, and [os.Exit]. *)
Definition Printf (s : string) : M unit :=
  fun st => (Ret tt, add_stdout s st).

Definition Fprintf_Stderr (s : string) : M unit :=
  fun st => (Ret tt, add_stderr s st).

Definition os_Exit {A} (code : Z) : M A := fun st => (Exited code, st).

(** The exit status of the process: the argument of [os.Exit], or 0
    when [main] returns. *)
Definition exit_status {A} (o : outcome A) : Z :=
  match o with
  | Ret _ => 0
  | Exited code => code
  end.

(** A call to the outside: the answer is the world's, for the calls made
    so far, and the call joins the trace. *)
Definition call {A} (c : Call) (answer : list Call -> reply A) : M (result A) :=
  fun st =>
    (Ret match answer (calls st) with
         | Failed msg => Err (LibError msg)
         | Answered a => Ok a
         end,
     add_call c st).

Definition is_nil (ip : net.IP) : bool :=
  match ip with None => true | Some _ => false end.

Section Program.

Variable w : World.

Definition LookupHost (host : string) : M (result (list string)) :=
  call (CallLookupHost host) (fun h => sysLookupHost w h host).
Definition LookupCNAME (host : string) : M (result string) :=
  call (CallLookupCNAME host) (fun h => sysLookupCNAME w h host).
Definition LookupMX (name : string) : M (result (list MX)) :=
  call (CallLookupMX name) (fun h => sysLookupMX w h name).
Definition LookupNS (name : string) : M (result (list NS)) :=
  call (CallLookupNS name) (fun h => sysLookupNS w h name).
Definition LookupTXT (name : string) : M (result (list string)) :=
  call (CallLookupTXT name) (fun h => sysLookupTXT w h name).
Definition LookupAddr (addr : string) : M (result (list string)) :=
  call (CallLookupAddr addr) (fun h => sysLookupAddr w h addr).
(** [c.Exchange(m, address)] for the message [m] whose question is
    [(qname, qtype)]. *)
Definition Exchange (qname : string) (qtype : N) (address : string)
  : M (result dns.Msg) :=
  call (CallExchange qname qtype address)
       (fun h => sysExchange w h qname qtype address).

(** What a lookup returns: Go's [([]string, error)]; the nil slice is
    [[]] and the nil error is [None]. *)
Definition records : Type := list string * option error.

Definition lookupA (domain : string) : M records :=
  r <- LookupHost domain ;;
  match r with
  | Err err => ret ([], Some err)
  | Ok addrs =>
      let result :=
        fold_left (fun result addr =>
                     if negb (is_nil (net.To4 (net.ParseIP addr)))
                     then result ++ [addr] else result)
                  addrs [] in
      ret (result, None)
  end.

Definition lookupAAAA (domain : string) : M records :=
  r <- LookupHost domain ;;
  match r with
  | Err err => ret ([], Some err)
  | Ok addrs =>
      let result :=
        fold_left (fun result addr =>
                     if negb (is_nil (net.To16 (net.ParseIP addr)))
                        && is_nil (net.To4 (net.ParseIP addr))
                     then result ++ [addr] else result)
                  addrs [] in
      ret (result, None)
  end.

Definition lookupCNAME (domain : string) : M records :=
  r <- LookupCNAME domain ;;
  match r with
  | Err err => ret ([], Some err)
  | Ok cname => ret ([cname], None)
  end.

Definition lookupMX (domain : string) : M records :=
  r <- LookupMX domain ;;
  match r with
  | Err err => ret ([], Some err)
  | Ok mxs =>
      let result :=
        fold_left (fun result mx =>
                     result ++ [(mx_Host mx ++ " (pref " ++ fmt.d (mx_Pref mx) ++ ")")%string])
                  mxs [] in
      ret (result, None)
  end.

Definition lookupNS (domain : string) : M records :=
  r <- LookupNS domain ;;
  match r with
  | Err err => ret ([], Some err)
  | Ok nss =>
      let result := fold_left (fun result ns => result ++ [ns_Host ns]) nss [] in
      ret (result, None)
  end.

Definition lookupTXT (domain : string) : M records :=
  r <- LookupTXT domain ;;
  match r with
  | Err err => ret ([], Some err)
  | Ok txts => ret (txts, None)
  end.

(** Helper for miekg/dns lookups. *)
Definition dnsQuery (domain qtype : string) : M (list dns.RR * option error) :=
  r <- Exchange (Fqdn w domain) (StringToType w qtype) "8.8.8.8:53" ;;
  match r with
  | Err err => ret ([], Some err)
  | Ok resp =>
      if negb (dns.Rcode resp =? dns.RcodeSuccess)%Z
      then ret ([], Some (Errorf ("invalid answer for " ++ domain ++ " type " ++ qtype)))
      else ret (dns.Answer resp, None)
  end.

Definition lookupSOA (domain : string) : M records :=
  '(rrs, err) <- dnsQuery domain "SOA" ;;
  match err with
  | Some err => ret ([], Some err)
  | None =>
      let result :=
        fold_left (fun result rr =>
                     match rr with
                     | dns.RR_SOA soa =>
                         result ++ [("NS: " ++ dns.soa_Ns soa ++ ", Mbox: "
                                     ++ dns.soa_Mbox soa ++ ", Serial: "
                                     ++ fmt.d (dns.soa_Serial soa))%string]
                     | _ => result
                     end)
                  rrs [] in
      ret (result, None)
  end.

Definition lookupPTR (domain : string) : M records :=
  let addr := domain in
  if is_nil (net.ParseIP addr)
  then ret ([], Some (Errorf "PTR lookup requires an IP address"))
  else
    r <- LookupAddr addr ;;
    match r with
    | Err err => ret ([], Some err)
    | Ok ptr => ret (ptr, None)
    end.

Definition lookupSRV (domain : string) : M records :=
  '(rrs, err) <- dnsQuery domain "SRV" ;;
  match err with
  | Some err => ret ([], Some err)
  | None =>
      let result :=
        fold_left (fun result rr =>
                     match rr with
                     | dns.RR_SRV srv =>
                         result ++ [(dns.srv_Target srv ++ " " ++ fmt.d (dns.srv_Port srv)
                                     ++ " " ++ fmt.d (dns.srv_Priority srv)
                                     ++ " " ++ fmt.d (dns.srv_Weight srv))%string]
                     | _ => result
                     end)
                  rrs [] in
      ret (result, None)
  end.

Definition lookupCERT (domain : string) : M records :=
  '(rrs, err) <- dnsQuery domain "CERT" ;;
  match err with
  | Some err => ret ([], Some err)
  | None =>
      let result :=
        fold_left (fun result rr =>
                     match rr with
                     | dns.RR_CERT cert =>
                         result ++ [("Type: " ++ fmt.d (dns.cert_Type cert)
                                     ++ ", KeyTag: " ++ fmt.d (dns.cert_KeyTag cert)
                                     ++ ", Algorithm: " ++ fmt.d (dns.cert_Algorithm cert)
                                     ++ ", Certificate: " ++ fmt.x (dns.cert_Certificate cert))%string]
                     | _ => result
                     end)
                  rrs [] in
      ret (result, None)
  end.

Definition lookupDNAME (domain : string) : M records :=
  '(rrs, err) <- dnsQuery domain "DNAME" ;;
  match err with
  | Some err => ret ([], Some err)
  | None =>
      let result :=
        fold_left (fun result rr =>
                     match rr with
                     | dns.RR_DNAME dname => result ++ [dns.dname_Target dname]
                     | _ => result
                     end)
                  rrs [] in
      ret (result, None)
  end.

(** An entry of the lookup table. *)
Record lookupFunc := { typeName : string; lookup : string -> M records }.

Definition lookupFuncs : list lookupFunc :=
  [ {| typeName := "A"; lookup := lookupA |};
    {| typeName := "AAAA"; lookup := lookupAAAA |};
    {| typeName := "CNAME"; lookup := lookupCNAME |};
    {| typeName := "MX"; lookup := lookupMX |};
    {| typeName := "NS"; lookup := lookupNS |};
    {| typeName := "TXT"; lookup := lookupTXT |};
    {| typeName := "SOA"; lookup := lookupSOA |};
    {| typeName := "SRV"; lookup := lookupSRV |};
    {| typeName := "CERT"; lookup := lookupCERT |};
    {| typeName := "DNAME"; lookup := lookupDNAME |} ].

(** The presenter: what [main] does with the outcome of one lookup
    (lines 53-62, and lines 24-31 with the label ["PTR"]). *)
Definition present (label : string) (r : records) : M unit :=
  let '(recs, err) := r in
  match err with
  | Some err => Printf (label ++ ": error: " ++ Error err ++ nl)
  | None =>
      if (0 <? List.length recs)%nat then
        Printf (label ++ ":" ++ nl) ;;
        range recs (fun rec => Printf ("  " ++ rec ++ nl))
      else ret tt
  end.

(** [main], for the argument vector [os.Args] (the program's name
    first). *)
Definition main (Args : list string) : M unit :=
  (if negb (List.length Args =? 2)%nat then
     Fprintf_Stderr ("Usage: godns <domain|ip>" ++ nl) ;;
     os_Exit 1
   else ret tt) ;;
  let target := nth 1 Args EmptyString in
  let isIP := negb (is_nil (net.ParseIP target)) in
  Printf ("DNS records for " ++ target ++ ":" ++ nl ++ nl) ;;
  if isIP then
    r <- lookupPTR target ;;
    present "PTR" r
  else
    range lookupFuncs (fun lf =>
      r <- lookup lf target ;;
      present (typeName lf) r).

End Program.

(** ** The specification's vocabulary *)

(** An address string counts as IPv4 when its parsed form converts to
    four bytes, and as IPv6 when it converts to sixteen. *)
Definition parses_as_IPv4 (addr : string) : bool :=
  negb (is_nil (net.To4 (net.ParseIP addr))).

Definition parses_as_IPv6 (addr : string) : bool :=
  negb (is_nil (net.To16 (net.ParseIP addr))).

(** The 16-byte form of the IPv4-mapped IPv6 address [::ffff:a.b.c.d]. *)
Definition v4_mapped (a b c d : N) : list N :=
  net.v4InV6Prefix ++ [a; b; c; d].

(** The line printed for one SOA record. *)
Definition format_SOA (soa : dns.SOA) : string :=
  "NS: " ++ dns.soa_Ns soa ++ ", Mbox: " ++ dns.soa_Mbox soa
  ++ ", Serial: " ++ fmt.d (dns.soa_Serial soa).

(** The SOA records of an answer section, in order. *)
Fixpoint soa_records (rrs : list dns.RR) : list dns.SOA :=
  match rrs with
  | [] => []
  | dns.RR_SOA soa :: rest => soa :: soa_records rest
  | _ :: rest => soa_records rest
  end.

(** The labelled block printed for a record type with results. *)
Definition block (label : string) (recs : list string) : string :=
  label ++ ":" ++ nl
  ++ String.concat EmptyString (map (fun rec => ("  " ++ rec ++ nl)%string) recs).

(** The line printed for a record type whose lookup failed. *)
Definition error_line (label : string) (e : error) : string :=
  label ++ ": error: " ++ Error e ++ nl.

Definition usage : string := "Usage: godns <domain|ip>" ++ nl.

(** The calls the ten table lookups make for [target], in table order. *)
Definition table_calls (w : World) (target : string) : list Call :=
  [ CallLookupHost target;
    CallLookupHost target;
    CallLookupCNAME target;
    CallLookupMX target;
    CallLookupNS target;
    CallLookupTXT target;
    CallExchange (Fqdn w target) (StringToType w "SOA") "8.8.8.8:53";
    CallExchange (Fqdn w target) (StringToType w "SRV") "8.8.8.8:53";
    CallExchange (Fqdn w target) (StringToType w "CERT") "8.8.8.8:53";
    CallExchange (Fqdn w target) (StringToType w "DNAME") "8.8.8.8:53" ].

(** A lookup, run in any state, returns after making the one call [c]
    and touching nothing else. *)
Definition makes_one_call (f : M records) (c : Call) : Prop :=
  forall st, exists r, f st = (Ret r, add_call c st).

(** Is this call the reverse lookup that only [lookupPTR] makes? *)
Definition is_reverse_lookup (c : Call) : bool :=
  match c with
  | CallLookupAddr _ => true
  | _ => false
  end.

(** A world in which every call fails. *)
Definition unreachable_world : World :=
  {| sysLookupHost := fun _ _ => Failed "network is unreachable";
     sysLookupCNAME := fun _ _ => Failed "network is unreachable";
     sysLookupMX := fun _ _ => Failed "network is unreachable";
     sysLookupNS := fun _ _ => Failed "network is unreachable";
     sysLookupTXT := fun _ _ => Failed "network is unreachable";
     sysLookupAddr := fun _ _ => Failed "network is unreachable";
     sysExchange := fun _ _ _ _ => Failed "i/o timeout";
     Fqdn := fun s => (s ++ ".")%string;
     StringToType := fun _ => 0%N |}.

(** A mocked world: every host lookup returns [addrs], every exchange
    succeeds with the answer section [answer], the MX lookup returns one
    record and the other lookups fail or return nothing. *)
Definition example_SOA : dns.SOA :=
  {| dns.soa_Ns := "ns1.example.com"; dns.soa_Mbox := "admin.example.com";
     dns.soa_Serial := 2024010100; dns.soa_Refresh := 7200;
     dns.soa_Retry := 3600; dns.soa_Expire := 1209600;
     dns.soa_Minttl := 3600 |}.

Definition mock_world (addrs : list string) (answer : list dns.RR) : World :=
  {| sysLookupHost := fun _ _ => Answered addrs;
     sysLookupCNAME := fun _ _ => Failed "no such host";
     sysLookupMX := fun _ _ =>
       Answered [ {| mx_Host := "mail.example.com"; mx_Pref := 10 |} ];
     sysLookupNS := fun _ _ => Answered [];
     sysLookupTXT := fun _ _ => Answered [];
     sysLookupAddr := fun _ _ => Answered ["dns.google."];
     sysExchange := fun _ _ _ _ =>
       Answered {| dns.Rcode := dns.RcodeSuccess; dns.Answer := answer |};
     Fqdn := fun s => (s ++ ".")%string;
     StringToType := fun s => if String.eqb s "SOA" then 6%N else 0%N |}.

(** A world whose upstream server answers every question with the
    response code [rcode] and an empty answer section. *)
Definition rcode_world (rcode : Z) : World :=
  {| sysLookupHost := fun _ _ => Answered [];
     sysLookupCNAME := fun _ _ => Failed "no such host";
     sysLookupMX := fun _ _ => Answered [];
     sysLookupNS := fun _ _ => Answered [];
     sysLookupTXT := fun _ _ => Answered [];
     sysLookupAddr := fun _ _ => Answered [];
     sysExchange := fun _ _ _ _ =>
       Answered {| dns.Rcode := rcode; dns.Answer := [] |};
     Fqdn := fun s => (s ++ ".")%string;
     StringToType := fun _ => 0%N |}.

(** What a lookup makes of the world's answer: the error as it is, or
    the lines [k] makes of the value. *)
Definition answer_of {A} (r : reply A) (k : A -> list string) : records :=
  match r with
  | Failed msg => ([], Some (LibError msg))
  | Answered a => (k a, None)
  end.

(** The text the presenter is to print for one outcome. *)
Definition presented (label : string) (r : records) : string :=
  match snd r with
  | Some e => error_line label e
  | None =>
      match fst r with
      | [] => EmptyString
      | recs => block label recs
      end
  end.

Definition header (target : string) : string :=
  "DNS records for " ++ target ++ ":" ++ nl ++ nl.

Definition invalid_answer (domain qtype : string) : error :=
  Errorf ("invalid answer for " ++ domain ++ " type " ++ qtype).

Definition upstream : string := "8.8.8.8:53".

(** ** Vocabulary for the remaining lookups and for whole runs *)

(** The line printed for one MX, SRV and CERT record. *)
Definition format_MX (mx : MX) : string :=
  mx_Host mx ++ " (pref " ++ fmt.d (mx_Pref mx) ++ ")".

Definition format_SRV (srv : dns.SRV) : string :=
  dns.srv_Target srv ++ " " ++ fmt.d (dns.srv_Port srv)
  ++ " " ++ fmt.d (dns.srv_Priority srv)
  ++ " " ++ fmt.d (dns.srv_Weight srv).

Definition format_CERT (cert : dns.CERT) : string :=
  "Type: " ++ fmt.d (dns.cert_Type cert)
  ++ ", KeyTag: " ++ fmt.d (dns.cert_KeyTag cert)
  ++ ", Algorithm: " ++ fmt.d (dns.cert_Algorithm cert)
  ++ ", Certificate: " ++ fmt.x (dns.cert_Certificate cert).

(** The records of an answer section that [pick] accepts, in order. *)
Fixpoint picked {A} (pick : dns.RR -> option A) (rrs : list dns.RR) : list A :=
  match rrs with
  | [] => []
  | rr :: rest =>
      match pick rr with
      | Some a => a :: picked pick rest
      | None => picked pick rest
      end
  end.

Definition as_SRV (rr : dns.RR) : option dns.SRV :=
  match rr with dns.RR_SRV srv => Some srv | _ => None end.

Definition as_CERT (rr : dns.RR) : option dns.CERT :=
  match rr with dns.RR_CERT cert => Some cert | _ => None end.

Definition as_DNAME (rr : dns.RR) : option dns.DNAME :=
  match rr with dns.RR_DNAME dname => Some dname | _ => None end.

(** Is this string an IP literal, as [main] decides it? *)
Definition is_IP_literal (s : string) : bool := negb (is_nil (net.ParseIP s)).

(** What a direct-query lookup makes of the upstream's answer to the
    question [(domain, qtype)], after the calls [h]. *)
Definition direct_answer (w : World) (h : list Call) (domain qtype : string)
    (k : list dns.RR -> list string) : records :=
  match sysExchange w h (Fqdn w domain) (StringToType w qtype) upstream with
  | Failed msg => ([], Some (LibError msg))
  | Answered resp =>
      if (dns.Rcode resp =? dns.RcodeSuccess)%Z
      then (k (dns.Answer resp), None)
      else ([], Some (invalid_answer domain qtype))
  end.

(** The result of each table lookup as a function of the calls made
    before it, in table order. *)
Definition table_answers (w : World) (target : string) : list (list Call -> records) :=
  [ fun h => answer_of (sysLookupHost w h target) (filter parses_as_IPv4);
    fun h => answer_of (sysLookupHost w h target)
                       (filter (fun a => parses_as_IPv6 a && negb (parses_as_IPv4 a)));
    fun h => answer_of (sysLookupCNAME w h target) (fun cname => [cname]);
    fun h => answer_of (sysLookupMX w h target) (map format_MX);
    fun h => answer_of (sysLookupNS w h target) (map ns_Host);
    fun h => answer_of (sysLookupTXT w h target) (fun txts => txts);
    fun h => direct_answer w h target "SOA" (fun rrs => map format_SOA (soa_records rrs));
    fun h => direct_answer w h target "SRV" (fun rrs => map format_SRV (picked as_SRV rrs));
    fun h => direct_answer w h target "CERT" (fun rrs => map format_CERT (picked as_CERT rrs));
    fun h => direct_answer w h target "DNAME"
                           (fun rrs => map dns.dname_Target (picked as_DNAME rrs)) ].

(** The lookup [f] returns [g h] after the calls [h], makes the one
    call [c] and touches nothing else. *)
Definition denotes (f : M records) (g : list Call -> records) (c : Call) : Prop :=
  forall st, f st = (Ret (g (calls st)), add_call c st).

Inductive table_denotes (target : string)
  : list lookupFunc -> list (list Call -> records) -> list Call -> Prop :=
| table_denotes_nil : table_denotes target [] [] []
| table_denotes_cons lf g c table gs cs :
    denotes (lookup lf target) g c ->
    table_denotes target table gs cs ->
    table_denotes target (lf :: table) (g :: gs) (c :: cs).

(** The results of a sequence of lookups: each one sees the calls made
    before it. *)
Fixpoint results_along (gs : list (list Call -> records)) (cs : list Call)
    (h : list Call) : list records :=
  match gs, cs with
  | g :: gs', c :: cs' => g h :: results_along gs' cs' (h ++ [c])
  | _, _ => []
  end.

(** What the presenter prints for a sequence of results. *)
Fixpoint output_of (labels : list string) (rs : list records) : string :=
  match labels, rs with
  | label :: labels', r :: rs' => presented label r ++ output_of labels' rs'
  | _, _ => EmptyString
  end.

Definition table_labels : list string :=
  ["A"; "AAAA"; "CNAME"; "MX"; "NS"; "TXT"; "SOA"; "SRV"; "CERT"; "DNAME"]%string.

(** Every lookup function of the program. *)
Definition all_lookups (w : World) : list (string -> M records) :=
  lookupPTR w :: map lookup (lookupFuncs w).

(** A lookup that returns, writes nothing, makes one call at most, and
    never returns records together with an error. *)
Definition well_behaved (f : string -> M records) : Prop :=
  forall domain st,
  exists recs err st',
    f domain st = (Ret (recs, err), st')
    /\ (st' = st \/ exists c, st' = add_call c st)
    /\ (err = None \/ recs = []).

Definition example_SRV : dns.SRV :=
  {| dns.srv_Priority := 10; dns.srv_Weight := 60; dns.srv_Port := 5060;
     dns.srv_Target := "sip.example.com." |}.

Definition example_CERT : dns.CERT :=
  {| dns.cert_Type := 1; dns.cert_KeyTag := 12345; dns.cert_Algorithm := 8;
     dns.cert_Certificate := "MIIB" |}.

(** A world whose MX and NS lookups return the given records; every
    other call fails. *)
Definition mail_world (mxs : list MX) (nss : list NS) : World :=
  {| sysLookupHost := fun _ _ => Failed "no such host";
     sysLookupCNAME := fun _ _ => Failed "no such host";
     sysLookupMX := fun _ _ => Answered mxs;
     sysLookupNS := fun _ _ => Answered nss;
     sysLookupTXT := fun _ _ => Failed "no such host";
     sysLookupAddr := fun _ _ => Failed "no such host";
     sysExchange := fun _ _ _ _ => Failed "i/o timeout";
     Fqdn := fun s => (s ++ ".")%string;
     StringToType := fun _ => 0%N |}.

(** The error a lookup backed by the system resolver is to return for
    the resolver's reply: the failure as it is, or none. *)
Definition failure_of {A} (r : reply A) : option error :=
  match r with
  | Failed msg => Some (LibError msg)
  | Answered _ => None
  end.

(** The table lookups that ask the system resolver, each with the
    failure of the call it makes. *)
Definition resolver_backed (w : World)
  : list ((string -> M records) * (list Call -> string -> option error)) :=
  [ (lookupA w, fun h d => failure_of (sysLookupHost w h d));
    (lookupAAAA w, fun h d => failure_of (sysLookupHost w h d));
    (lookupCNAME w, fun h d => failure_of (sysLookupCNAME w h d));
    (lookupMX w, fun h d => failure_of (sysLookupMX w h d));
    (lookupNS w, fun h d => failure_of (sysLookupNS w h d));
    (lookupTXT w, fun h d => failure_of (sysLookupTXT w h d)) ].

(** A text that is a sequence of complete lines: it ends with a
    newline. *)
Definition ends_with_newline (s : string) : Prop :=
  exists body, s = (body ++ nl)%string.

(** A world whose upstream server refuses SOA questions only (response
    code 3) and answers every other question with success and an empty
    answer section. *)
Definition SOA_refusing_world : World :=
  {| sysLookupHost := fun _ _ => Answered [];
     sysLookupCNAME := fun _ _ => Failed "no such host";
     sysLookupMX := fun _ _ => Answered [];
     sysLookupNS := fun _ _ => Answered [];
     sysLookupTXT := fun _ _ => Answered [];
     sysLookupAddr := fun _ _ => Answered [];
     sysExchange := fun _ _ qtype _ =>
       if (qtype =? 6)%N
       then Answered {| dns.Rcode := 3; dns.Answer := [] |}
       else Answered {| dns.Rcode := dns.RcodeSuccess; dns.Answer := [] |};
     Fqdn := fun s => (s ++ ".")%string;
     StringToType := fun s =>
       if String.eqb s "SOA" then 6%N
       else if String.eqb s "SRV" then 33%N
       else if String.eqb s "CERT" then 37%N
       else if String.eqb s "DNAME" then 39%N
       else 0%N |}.

(** * Proofs *)

(** ** The parser of IP literals *)

Lemma parseIPv4Fields_loop_stores s :
  forall first prev_dot val pos digLen fields val' pos' fields',
  (pos <= 3)%nat ->
  net.parseIPv4Fields_loop s first prev_dot val pos digLen fields
  = Some (val', pos', fields') ->
  (pos' <= 3)%nat /\ (List.length fields' + pos = List.length fields + pos')%nat.
Proof.
  induction s as [|c s IH]; intros first prev_dot val pos digLen fields val' pos' fields' Hpos;
    cbn [net.parseIPv4Fields_loop].
  - intros [= <- <- <-]. lia.
  - destruct (net.is_digit c).
    + destruct ((digLen =? 1)%nat && (val =? 0)%N); [discriminate|].
      cbv zeta. destruct (255 <? _)%N; [discriminate|].
      intro H. apply (IH _ _ _ _ _ _ _ _ _ Hpos H).
    + destruct (Ascii.eqb c "."); [|discriminate].
      destruct (first || is_empty s || prev_dot); [discriminate|].
      destruct (Nat.eqb_spec pos 3) as [|Hne]; [discriminate|].
      intro H. apply IH in H; [|lia].
      rewrite length_app in H. cbn [List.length] in H. lia.
Qed.

Lemma parseIPv4Fields_length s f :
  net.parseIPv4Fields s = Some f -> List.length f = 4%nat.
Proof.
  unfold net.parseIPv4Fields.
  destruct (net.parseIPv4Fields_loop s true false 0%N 0 0 []) as [[[val pos] fields]|] eqn:E;
    [|discriminate].
  apply parseIPv4Fields_loop_stores in E; [|lia].
  destruct (Nat.ltb_spec pos 3); [discriminate|].
  intros [= <-]. rewrite length_app. cbn [List.length] in *. lia.
Qed.

(** Eight turns are enough for the loop of [parseIPv6]: with more turns
    the result is the same. *)
Lemma parseIPv6_loop_turns t1 :
  forall t2 s i ellipsis ip,
  (16 <= i + 2 * Z.of_nat t1)%Z ->
  (16 <= i + 2 * Z.of_nat t2)%Z ->
  net.parseIPv6_loop t1 s i ellipsis ip = net.parseIPv6_loop t2 s i ellipsis ip.
Proof.
  induction t1 as [|t1 IH]; intros [|t2] s i ellipsis ip H1 H2;
    cbn [net.parseIPv6_loop];
    destruct (Z.ltb_spec i 16); cbn [negb]; try reflexivity; try lia.
  destruct (net.parseIPv6_group s 0 0%N) as [[[off acc] rest]|]; [|reflexivity].
  destruct (off =? 0)%nat; [reflexivity|].
  destruct (starts_with "." rest); [reflexivity|]. cbv zeta.
  destruct (is_empty rest); [reflexivity|].
  destruct (negb (starts_with ":" rest)); [reflexivity|].
  destruct (String.length rest =? 1)%nat; [reflexivity|].
  destruct (starts_with ":" (tail rest)).
  - destruct (0 <=? ellipsis)%Z; [reflexivity|].
    destruct (is_empty (tail (tail rest))); [reflexivity|].
    apply IH; lia.
  - apply IH; lia.
Qed.

Lemma parseIPv6_loop_eight_turns (k : nat) s ellipsis :
  net.parseIPv6_loop (8 + k) s 0 ellipsis [] = net.parseIPv6_loop 8 s 0 ellipsis [].
Proof.
  apply parseIPv6_loop_turns; lia.
Qed.

(** The loop of [parseIPv6] keeps [ip] at [i] bytes, and [i] within the
    sixteen of the address. *)
Lemma parseIPv6_loop_stores turns :
  forall s i ellipsis ip s' i' ellipsis' ip',
  Z.of_nat (List.length ip) = i ->
  (0 <= i <= 16)%Z -> Z.even i = true ->
  (ellipsis <= i)%Z ->
  net.parseIPv6_loop turns s i ellipsis ip = Some (s', i', ellipsis', ip') ->
  Z.of_nat (List.length ip') = i' /\ (0 <= i' <= 16)%Z /\ (ellipsis' <= i')%Z.
Proof.
  induction turns as [|turns IH]; intros s i ellipsis ip s' i' ellipsis' ip' Hlen Hi Heven He;
    cbn [net.parseIPv6_loop];
    (destruct (Z.ltb_spec i 16); cbn [negb]; [|intros [= <- <- <- <-]; lia]);
    [discriminate|].
  assert (Hi2 : (i + 2 <= 16)%Z).
  { rewrite Z.even_spec in Heven. destruct Heven as [k ->]. lia. }
  assert (Heven2 : Z.even (i + 2) = true).
  { rewrite Z.even_add, Heven. reflexivity. }
  assert (Hlen2 : forall x y, Z.of_nat (List.length (ip ++ [x; y])) = (i + 2)%Z).
  { intros x y. rewrite length_app. cbn [List.length]. lia. }
  destruct (net.parseIPv6_group s 0 0%N) as [[[off acc] rest]|]; [|discriminate].
  destruct (off =? 0)%nat; [discriminate|].
  destruct (starts_with "." rest).
  - destruct ((ellipsis <? 0)%Z && negb (i =? 12)%Z); [discriminate|].
    destruct (Z.ltb_spec 16 (i + 4)); [discriminate|].
    destruct (net.parseIPv4Fields s) as [f|] eqn:Ef; [|discriminate].
    apply parseIPv4Fields_length in Ef.
    intros [= <- <- <- <-]. rewrite length_app. lia.
  - cbv zeta.
    destruct (is_empty rest); [intros [= <- <- <- <-]; rewrite Hlen2; lia|].
    destruct (negb (starts_with ":" rest)); [discriminate|].
    destruct (String.length rest =? 1)%nat; [discriminate|].
    destruct (starts_with ":" (tail rest)).
    + destruct (0 <=? ellipsis)%Z; [discriminate|].
      destruct (is_empty (tail (tail rest))).
      * intros [= <- <- <- <-]. rewrite Hlen2. lia.
      * apply IH; try assumption; try lia. apply Hlen2.
    + apply IH; try assumption; try lia. apply Hlen2.
Qed.

Lemma Some_eq {A} (x y : A) : Some x = Some y -> x = y.
Proof. congruence. Qed.

Lemma parseIPv6_length s a :
  net.parseIPv6 s = Some a -> List.length (net.As16 a) = 16%nat.
Proof.
  unfold net.parseIPv6.
  destruct (match cut "%" s with
            | Some (s0, zone) => if is_empty zone then None else Some (s0, zone)
            | None => Some (s, EmptyString)
            end) as [[s0 zone]|]; [|discriminate].
  cbv zeta.
  destruct (_ && is_empty _); [intros [= <-]; reflexivity|].
  set (leading := (_ && _ && _)%bool). clearbody leading.
  destruct (net.parseIPv6_loop 8 _ 0 _ []) as [[[[s2 i] ellipsis] ip]|] eqn:E; [|discriminate].
  apply parseIPv6_loop_stores in E; try reflexivity; try lia;
    [|destruct leading; cbn; lia].
  destruct E as (Hlen & Hi & He).
  destruct (negb (is_empty s2)); [discriminate|].
  destruct (Z.ltb_spec i 16).
  - destruct (Z.ltb_spec ellipsis 0); [discriminate|].
    intros Ha. apply Some_eq in Ha. rewrite <- Ha. cbn [net.As16].
    rewrite !length_app, length_firstn, repeat_length, length_skipn. lia.
  - destruct (0 <=? ellipsis)%Z; [discriminate|].
    intros [= <-]. cbn [net.As16]. lia.
Qed.

Lemma parseIPv4_length s a :
  net.parseIPv4 s = Some a -> List.length (net.As16 a) = 16%nat.
Proof.
  unfold net.parseIPv4.
  destruct (net.parseIPv4Fields s) as [f|] eqn:E; [|discriminate].
  apply parseIPv4Fields_length in E. intros [= <-].
  cbn [net.As16]. rewrite length_app, E. reflexivity.
Qed.

Lemma ParseAddr_scan_length s rest a :
  net.ParseAddr_scan s rest = Some a -> List.length (net.As16 a) = 16%nat.
Proof.
  induction rest as [|c rest IH]; cbn [net.ParseAddr_scan]; [discriminate|].
  destruct (Ascii.eqb c "."); [apply parseIPv4_length|].
  destruct (Ascii.eqb c ":"); [apply parseIPv6_length|].
  destruct (Ascii.eqb c "%"); [discriminate | exact IH].
Qed.

(** [net.ParseIP] returns nil or sixteen bytes. *)
Lemma ParseIP_length s b :
  net.ParseIP s = Some b -> List.length b = 16%nat.
Proof.
  unfold net.ParseIP, net.ParseAddr.
  destruct (net.ParseAddr_scan s s) as [a|] eqn:E; [|discriminate].
  apply ParseAddr_scan_length in E.
  destruct (is_empty (net.Zone a)); [|discriminate].
  now intros [= <-].
Qed.

(** So an address string parses as IPv6 exactly when it is an IP
    literal, and every IPv4 one is among them. *)
Lemma parses_as_IPv6_iff_literal s :
  parses_as_IPv6 s = negb (is_nil (net.ParseIP s)).
Proof.
  unfold parses_as_IPv6. destruct (net.ParseIP s) as [b|] eqn:E; [|reflexivity].
  apply ParseIP_length in E. unfold net.To16. now rewrite E.
Qed.

Lemma parses_as_IPv4_iff_mapped s :
  parses_as_IPv4 s = true
  <-> exists a b c d, net.ParseIP s = Some (v4_mapped a b c d).
Proof.
  unfold parses_as_IPv4. split.
  - destruct (net.ParseIP s) as [bs|] eqn:E; [|discriminate].
    apply ParseIP_length in E.
    do 16 (destruct bs as [|? bs]; [discriminate E|]).
    destruct bs; [|discriminate E].
    unfold net.To4. cbn [List.length Nat.eqb net.IPv4len net.IPv6len andb firstn nth net.isZeros forallb].
    repeat match goal with
           | |- context [(?x =? ?y)%N] => destruct (N.eqb_spec x y); [subst|cbn; discriminate]
           end.
    intros _. do 4 eexists. reflexivity.
  - intros (a & b & c & d & ->). reflexivity.
Qed.

(** ** Strings and loops *)

Lemma string_app_assoc (a b c : string) : ((a ++ b) ++ c = a ++ (b ++ c))%string.
Proof.
  induction a as [|ch a IH]; simpl; [reflexivity | now rewrite IH].
Qed.

Lemma string_app_nil_r (a : string) : (a ++ EmptyString)%string = a.
Proof.
  induction a as [|ch a IH]; simpl; [reflexivity | now rewrite IH].
Qed.

Lemma add_stdout_add_stdout (a b : string) (st : State) :
  add_stdout b (add_stdout a st) = add_stdout (a ++ b) st.
Proof.
  unfold add_stdout; simpl. now rewrite string_app_assoc.
Qed.

Lemma add_stdout_empty (st : State) : add_stdout EmptyString st = st.
Proof.
  destruct st as [cs out errs]; unfold add_stdout; simpl.
  now rewrite string_app_nil_r.
Qed.

(** The accumulating loops of the lookups are filters and maps. *)
Lemma append_if_is_filter {A} (keep : A -> bool) (xs acc : list A) :
  fold_left (fun result x => if keep x then result ++ [x] else result) xs acc
  = acc ++ filter keep xs.
Proof.
  revert acc; induction xs as [|x xs IH]; intros acc; simpl.
  - now rewrite app_nil_r.
  - rewrite IH. destruct (keep x); [|reflexivity].
    now rewrite <- app_assoc.
Qed.

Lemma append_all_is_map {A B} (f : A -> B) (xs : list A) (acc : list B) :
  fold_left (fun result x => result ++ [f x]) xs acc = acc ++ map f xs.
Proof.
  revert acc; induction xs as [|x xs IH]; intros acc; simpl.
  - now rewrite app_nil_r.
  - rewrite IH. now rewrite <- app_assoc.
Qed.

Lemma append_SOA_is_map (rrs : list dns.RR) (acc : list string) :
  fold_left (fun result rr =>
               match rr with
               | dns.RR_SOA soa =>
                   result ++ [("NS: " ++ dns.soa_Ns soa ++ ", Mbox: "
                               ++ dns.soa_Mbox soa ++ ", Serial: "
                               ++ fmt.d (dns.soa_Serial soa))%string]
               | _ => result
               end) rrs acc
  = acc ++ map format_SOA (soa_records rrs).
Proof.
  revert acc; induction rrs as [|rr rrs IH]; intros acc; simpl.
  - now rewrite app_nil_r.
  - rewrite IH. destruct rr; simpl; try reflexivity.
    now rewrite <- app_assoc.
Qed.

(** Printing a list of lines, one [Printf] each. *)
Lemma range_Printf {A} (line : A -> string) (xs : list A) (st : State) :
  range xs (fun x => Printf (line x)) st
  = (Ret tt, add_stdout (String.concat EmptyString (map line xs)) st).
Proof.
  revert st; induction xs as [|x xs IH]; intros st.
  - simpl. unfold ret. now rewrite add_stdout_empty.
  - cbn [range]. unfold bind at 1. unfold Printf at 1. rewrite IH.
    rewrite add_stdout_add_stdout. do 2 f_equal.
    cbn [map]. destruct xs as [|y ys]; cbn [map String.concat].
    + now rewrite string_app_nil_r.
    + reflexivity.
Qed.

(** ** One lookup at a time *)

Section Runs.

Variable w : World.

Lemma lookupA_run domain st :
  lookupA w domain st
  = (Ret (answer_of (sysLookupHost w (calls st) domain) (filter parses_as_IPv4)),
     add_call (CallLookupHost domain) st).
Proof.
  unfold lookupA, bind, LookupHost, call, answer_of.
  destruct (sysLookupHost w (calls st) domain) as [msg|addrs]; [reflexivity|].
  unfold ret. now rewrite append_if_is_filter.
Qed.

Lemma lookupAAAA_run domain st :
  lookupAAAA w domain st
  = (Ret (answer_of (sysLookupHost w (calls st) domain)
                    (filter (fun a => parses_as_IPv6 a && negb (parses_as_IPv4 a)))),
     add_call (CallLookupHost domain) st).
Proof.
  unfold lookupAAAA, bind, LookupHost, call, answer_of.
  destruct (sysLookupHost w (calls st) domain) as [msg|addrs]; [reflexivity|].
  unfold ret. rewrite append_if_is_filter. cbn [app].
  rewrite (filter_ext _ (fun a => parses_as_IPv6 a && negb (parses_as_IPv4 a)));
    [reflexivity|].
  intro a. unfold parses_as_IPv6, parses_as_IPv4.
  now rewrite negb_involutive.
Qed.

Lemma lookupCNAME_run domain st :
  lookupCNAME w domain st
  = (Ret (answer_of (sysLookupCNAME w (calls st) domain) (fun cname => [cname])),
     add_call (CallLookupCNAME domain) st).
Proof.
  unfold lookupCNAME, bind, LookupCNAME, call, answer_of.
  now destruct (sysLookupCNAME w (calls st) domain).
Qed.

Lemma lookupMX_run domain st :
  lookupMX w domain st
  = (Ret (answer_of (sysLookupMX w (calls st) domain)
            (map (fun mx => (mx_Host mx ++ " (pref " ++ fmt.d (mx_Pref mx) ++ ")")%string))),
     add_call (CallLookupMX domain) st).
Proof.
  unfold lookupMX, bind, LookupMX, call, answer_of.
  destruct (sysLookupMX w (calls st) domain) as [msg|mxs]; [reflexivity|].
  unfold ret. now rewrite append_all_is_map.
Qed.

Lemma lookupNS_run domain st :
  lookupNS w domain st
  = (Ret (answer_of (sysLookupNS w (calls st) domain) (map ns_Host)),
     add_call (CallLookupNS domain) st).
Proof.
  unfold lookupNS, bind, LookupNS, call, answer_of.
  destruct (sysLookupNS w (calls st) domain) as [msg|nss]; [reflexivity|].
  unfold ret. now rewrite append_all_is_map.
Qed.

Lemma lookupTXT_run domain st :
  lookupTXT w domain st
  = (Ret (answer_of (sysLookupTXT w (calls st) domain) (fun txts => txts)),
     add_call (CallLookupTXT domain) st).
Proof.
  unfold lookupTXT, bind, LookupTXT, call, answer_of.
  now destruct (sysLookupTXT w (calls st) domain).
Qed.

Lemma dnsQuery_run domain qtype st :
  dnsQuery w domain qtype st
  = (Ret match sysExchange w (calls st) (Fqdn w domain) (StringToType w qtype) upstream with
         | Failed msg => ([], Some (LibError msg))
         | Answered resp =>
             if (dns.Rcode resp =? dns.RcodeSuccess)%Z
             then (dns.Answer resp, None)
             else ([], Some (invalid_answer domain qtype))
         end,
     add_call (CallExchange (Fqdn w domain) (StringToType w qtype) upstream) st).
Proof.
  unfold dnsQuery, bind, Exchange, call, upstream, invalid_answer.
  destruct (sysExchange w (calls st) _ _ _) as [msg|resp]; [reflexivity|].
  now destruct (dns.Rcode resp =? dns.RcodeSuccess)%Z.
Qed.

(** Whatever comes back, a direct-query lookup returns after the one
    exchange. *)
Lemma direct_lookup_one_call domain qtype (format : list dns.RR -> list string) st :
  exists r,
    bind (dnsQuery w domain qtype)
         (fun x => match x with
                   | (rrs, Some err) => ret ([], Some err)
                   | (rrs, None) => ret (format rrs, None)
                   end) st
    = (Ret r, add_call (CallExchange (Fqdn w domain) (StringToType w qtype) upstream) st).
Proof.
  unfold bind at 1. rewrite dnsQuery_run.
  destruct (sysExchange w (calls st) _ _ _) as [msg|resp].
  - eexists; reflexivity.
  - destruct (dns.Rcode resp =? dns.RcodeSuccess)%Z; eexists; reflexivity.
Qed.

Lemma lookupSOA_run domain st :
  lookupSOA w domain st
  = (Ret match sysExchange w (calls st) (Fqdn w domain) (StringToType w "SOA") upstream with
         | Failed msg => ([], Some (LibError msg))
         | Answered resp =>
             if (dns.Rcode resp =? dns.RcodeSuccess)%Z
             then (map format_SOA (soa_records (dns.Answer resp)), None)
             else ([], Some (invalid_answer domain "SOA"))
         end,
     add_call (CallExchange (Fqdn w domain) (StringToType w "SOA") upstream) st).
Proof.
  unfold lookupSOA. unfold bind at 1. rewrite dnsQuery_run.
  destruct (sysExchange w (calls st) _ _ _) as [msg|resp]; [reflexivity|].
  destruct (dns.Rcode resp =? dns.RcodeSuccess)%Z; [|reflexivity].
  unfold ret. now rewrite append_SOA_is_map.
Qed.

Lemma lookupPTR_run domain st :
  lookupPTR w domain st
  = if is_nil (net.ParseIP domain)
    then (Ret ([], Some (Errorf "PTR lookup requires an IP address")), st)
    else (Ret (answer_of (sysLookupAddr w (calls st) domain) (fun ptr => ptr)),
          add_call (CallLookupAddr domain) st).
Proof.
  unfold lookupPTR. destruct (is_nil (net.ParseIP domain)); [reflexivity|].
  unfold bind, LookupAddr, call, answer_of.
  now destruct (sysLookupAddr w (calls st) domain).
Qed.

(** Each entry of the table makes its one call, in whatever state it
    runs and whatever the world answers. *)
Lemma table_entries_one_call target :
  Forall2 (fun lf c => makes_one_call (lookup lf target) c)
          (lookupFuncs w) (table_calls w target).
Proof.
  unfold lookupFuncs, table_calls.
  repeat apply Forall2_cons; try apply Forall2_nil; intro st; cbn [lookup].
  - rewrite lookupA_run; eexists; reflexivity.
  - rewrite lookupAAAA_run; eexists; reflexivity.
  - rewrite lookupCNAME_run; eexists; reflexivity.
  - rewrite lookupMX_run; eexists; reflexivity.
  - rewrite lookupNS_run; eexists; reflexivity.
  - rewrite lookupTXT_run; eexists; reflexivity.
  - rewrite lookupSOA_run; eexists; reflexivity.
  - apply direct_lookup_one_call.
  - apply direct_lookup_one_call.
  - apply direct_lookup_one_call.
Qed.

(** ** The presenter and the dispatcher *)

Lemma present_run label r st :
  present label r st = (Ret tt, add_stdout (presented label r) st).
Proof.
  destruct r as [recs [e|]]; cbn [present presented fst snd].
  - reflexivity.
  - destruct recs as [|rec recs].
    + cbn. unfold ret. now rewrite add_stdout_empty.
    + cbn [List.length Nat.ltb Nat.leb]. unfold bind at 1, Printf at 1.
      rewrite range_Printf, add_stdout_add_stdout.
      unfold block. now rewrite !string_app_assoc.
Qed.

(** The loop over a table: every entry's lookup runs once, in table
    order, whatever the earlier ones returned; nothing is written to
    standard error and the loop returns. *)
Lemma dispatch_run target (table : list (lookupFunc)) (cs : list Call) :
  Forall2 (fun lf c => makes_one_call (lookup lf target) c) table cs ->
  forall st, exists st',
    range table (fun lf => r <- lookup lf target ;; present (typeName lf) r) st
    = (Ret tt, st')
    /\ calls st' = calls st ++ cs
    /\ stderr st' = stderr st.
Proof.
  induction 1 as [|lf c table cs Hone _ IH]; intros st.
  - exists st. cbn. now rewrite app_nil_r.
  - destruct (Hone st) as [r Hr].
    destruct (IH (add_stdout (presented (typeName lf) r) (add_call c st)))
      as (st' & Hrun & Hcalls & Herr).
    exists st'. cbn [range]. unfold bind at 1 2. rewrite Hr, present_run.
    split; [exact Hrun|]. split.
    + rewrite Hcalls. cbn. now rewrite <- app_assoc.
    + rewrite Herr. reflexivity.
Qed.

Lemma main_one_argument arg0 target st :
  main w [arg0; target] st
  = (if negb (is_nil (net.ParseIP target))
     then r <- lookupPTR w target ;; present "PTR" r
     else range (lookupFuncs w)
                (fun lf => r <- lookup lf target ;; present (typeName lf) r))
      (add_stdout (header target) st).
Proof. reflexivity. Qed.

(** With one argument [main] returns, having made the calls of the
    one path it took. *)
Lemma main_one_argument_run arg0 target st :
  exists st',
    main w [arg0; target] st = (Ret tt, st')
    /\ calls st' = calls st ++ (if is_nil (net.ParseIP target)
                                then table_calls w target
                                else [CallLookupAddr target])
    /\ stderr st' = stderr st.
Proof.
  rewrite main_one_argument.
  destruct (is_nil (net.ParseIP target)) eqn:Hip; cbn [negb].
  - destruct (dispatch_run target _ _ (table_entries_one_call target)
                           (add_stdout (header target) st))
      as (st' & Hrun & Hcalls & Herr).
    exists st'. repeat split; assumption.
  - unfold bind. rewrite lookupPTR_run, Hip, present_run.
    eexists. repeat split.
Qed.

Lemma main_wrong_arguments Args st :
  List.length Args <> 2%nat ->
  main w Args st = (Exited 1, add_stderr usage st).
Proof.
  intro H. unfold main.
  destruct (Nat.eqb_spec (List.length Args) 2) as [E|_]; [contradiction|].
  reflexivity.
Qed.

End Runs.

(** * The claims *)

(** ** The dispatcher *)



(** C7. When the argument vector does not hold exactly one argument
    after the program's name, [main] writes the usage message to
    standard error and exits with status 1; no call has been made and
    nothing has been written to standard output. *)
Theorem wrong_argument_count_is_fatal (w : World) (Args : list string) (st : State) :
  List.length Args <> 2%nat ->
  main w Args st = (Exited 1, add_stderr usage st)
  /\ exit_status (fst (main w Args st)) = 1%Z
  /\ calls (snd (main w Args st)) = calls st
  /\ stdout (snd (main w Args st)) = stdout st
  /\ stderr (snd (main w Args st)) = (stderr st ++ "Usage: godns <domain|ip>" ++ nl)%string.
Proof.
  intro H. rewrite (main_wrong_arguments w Args st H). repeat split.
Qed.

Lemma wrong_argument_count_is_fatal_witness :
  main unreachable_world ["godns"]%string initial
  = (Exited 1, add_stderr usage initial)
  /\ main unreachable_world ["godns"; "example.com"; "8.8.8.8"]%string initial
     = (Exited 1, add_stderr usage initial).
Proof.
  split.
  - apply (wrong_argument_count_is_fatal unreachable_world ["godns"]%string initial).
    cbn; lia.
  - apply (wrong_argument_count_is_fatal unreachable_world
             ["godns"; "example.com"; "8.8.8.8"]%string initial).
    cbn; lia.
Defined.

(** C8. With exactly one argument [main] returns, so the process ends
    with status 0, in every world: also in one where every lookup
    fails.  By then every call of the path taken has been made. *)
Theorem one_argument_exits_zero (w : World) (arg0 target : string) (st : State) :
  exit_status (fst (main w [arg0; target] st)) = 0%Z
  /\ fst (main w [arg0; target] st) = Ret tt
  /\ calls (snd (main w [arg0; target] st))
     = calls st ++ (if is_nil (net.ParseIP target)
                    then table_calls w target
                    else [CallLookupAddr target]).
Proof.
  destruct (main_one_argument_run w arg0 target st) as (st' & Hrun & Hcalls & _).
  rewrite Hrun. cbn. repeat split. exact Hcalls.
Qed.

(** ** The lookups *)

(** C3. On a string that is not an IP literal, [lookupPTR] returns its
    validation error and no results, and the state is unchanged: no
    call was made.  On an IP literal it makes the one reverse lookup
    and returns what the resolver returned: the host names as they
    came, or the resolver's error. *)
Theorem lookupPTR_validates_first (w : World) (domain : string) (st : State) :
  (is_nil (net.ParseIP domain) = true ->
   lookupPTR w domain st
   = (Ret ([], Some (Errorf "PTR lookup requires an IP address")), st))
  /\ (is_nil (net.ParseIP domain) = false ->
      snd (lookupPTR w domain st) = add_call (CallLookupAddr domain) st
      /\ (forall names, sysLookupAddr w (calls st) domain = Answered names ->
                        fst (lookupPTR w domain st) = Ret (names, None))
      /\ (forall msg, sysLookupAddr w (calls st) domain = Failed msg ->
                      fst (lookupPTR w domain st) = Ret ([], Some (LibError msg)))).
Proof.
  rewrite lookupPTR_run. split; intros Hip; rewrite Hip; [reflexivity|].
  split; [reflexivity|]. cbn [fst].
  split; intros x Hx; now rewrite Hx.
Qed.

Lemma lookupPTR_validates_first_witness :
  lookupPTR (mock_world [] []) "example.com" initial
  = (Ret ([], Some (Errorf "PTR lookup requires an IP address")), initial)
  /\ snd (lookupPTR (mock_world [] []) "8.8.8.8" initial)
     = add_call (CallLookupAddr "8.8.8.8") initial
  /\ fst (lookupPTR (mock_world [] []) "8.8.8.8" initial)
     = Ret (["dns.google."]%string, None).
Proof.
  split; [|split].
  - apply (lookupPTR_validates_first (mock_world [] []) "example.com" initial).
    reflexivity.
  - apply (lookupPTR_validates_first (mock_world [] []) "8.8.8.8" initial).
    reflexivity.
  - apply (lookupPTR_validates_first (mock_world [] []) "8.8.8.8" initial);
      reflexivity.
Defined.

(** C4. When the host lookup returns [addrs], [lookupA] returns the
    addresses of [addrs] that parse as IPv4 and [lookupAAAA] those that
    parse as IPv6 and not as IPv4, both in the order of [addrs].  For
    the two addresses of the example the first is the A result and the
    second the AAAA result. *)
Theorem A_and_AAAA_filter_host_addresses
    (w : World) (domain : string) (st : State) (addrs : list string) :
  sysLookupHost w (calls st) domain = Answered addrs ->
  fst (lookupA w domain st) = Ret (filter parses_as_IPv4 addrs, None)
  /\ fst (lookupAAAA w domain st)
     = Ret (filter (fun a => parses_as_IPv6 a && negb (parses_as_IPv4 a)) addrs, None)
  /\ (addrs = ["93.184.216.34"; "2606:2800:220:1:248:1893:25c8:1946"]%string ->
      fst (lookupA w domain st) = Ret (["93.184.216.34"]%string, None)
      /\ fst (lookupAAAA w domain st)
         = Ret (["2606:2800:220:1:248:1893:25c8:1946"]%string, None)).
Proof.
  intro Hhost. rewrite lookupA_run, lookupAAAA_run, Hhost. cbn [fst answer_of].
  split; [reflexivity|]. split; [reflexivity|].
  intros ->. split; reflexivity.
Qed.

Lemma A_and_AAAA_filter_host_addresses_witness :
  fst (lookupA
         (mock_world ["93.184.216.34"; "2606:2800:220:1:248:1893:25c8:1946"]%string [])
         "example.com" initial)
  = Ret (["93.184.216.34"]%string, None)
  /\ fst (lookupAAAA
            (mock_world ["93.184.216.34"; "2606:2800:220:1:248:1893:25c8:1946"]%string [])
            "example.com" initial)
     = Ret (["2606:2800:220:1:248:1893:25c8:1946"]%string, None).
Proof.
  apply (A_and_AAAA_filter_host_addresses
           (mock_world ["93.184.216.34"; "2606:2800:220:1:248:1893:25c8:1946"]%string [])
           "example.com" initial
           ["93.184.216.34"; "2606:2800:220:1:248:1893:25c8:1946"]%string);
    reflexivity.
Defined.

(** C10. An address of the host lookup that parses to an IPv4-mapped
    IPv6 address, as ["::ffff:192.0.2.1"] does, is among the A results
    and not among the AAAA results; an address that does not parse is
    in neither, and neither lookup fails because of it. *)
Theorem mapped_addresses_are_A_results
    (w : World) (domain : string) (st1 st2 : State) (addrs : list string) :
  sysLookupHost w (calls st1) domain = Answered addrs ->
  sysLookupHost w (calls st2) domain = Answered addrs ->
  exists as4 as6,
    fst (lookupA w domain st1) = Ret (as4, None)
    /\ fst (lookupAAAA w domain st2) = Ret (as6, None)
    /\ (forall addr a b c d,
          In addr addrs ->
          net.ParseIP addr = Some (v4_mapped a b c d) ->
          In addr as4 /\ ~ In addr as6)
    /\ (forall addr,
          net.ParseIP addr = None -> ~ In addr as4 /\ ~ In addr as6)
    /\ net.ParseIP "::ffff:192.0.2.1" = Some (v4_mapped 192 0 2 1).
Proof.
  intros H1 H2. rewrite lookupA_run, lookupAAAA_run, H1, H2. cbn [fst answer_of].
  do 2 eexists. split; [reflexivity|]. split; [reflexivity|].
  split; [|split; [|reflexivity]].
  - intros addr a b c d Hin Hparse. rewrite !filter_In.
    unfold parses_as_IPv6, parses_as_IPv4. rewrite Hparse. cbn.
    split; [split; [exact Hin | reflexivity]|].
    intros [_ Hno]. discriminate Hno.
  - intros addr Hparse. rewrite !filter_In.
    unfold parses_as_IPv6, parses_as_IPv4. rewrite Hparse. cbn.
    split; intros [_ Hno]; discriminate Hno.
Qed.

Lemma mapped_addresses_are_A_results_witness :
  exists as4 as6,
    fst (lookupA (mock_world ["::ffff:192.0.2.1"; "localhost"]%string [])
                 "example.com" initial) = Ret (as4, None)
    /\ fst (lookupAAAA (mock_world ["::ffff:192.0.2.1"; "localhost"]%string [])
                       "example.com" initial) = Ret (as6, None)
    /\ In "::ffff:192.0.2.1"%string as4 /\ ~ In "::ffff:192.0.2.1"%string as6
    /\ ~ In "localhost"%string as4 /\ ~ In "localhost"%string as6.
Proof.
  destruct (mapped_addresses_are_A_results
              (mock_world ["::ffff:192.0.2.1"; "localhost"]%string [])
              "example.com" initial initial
              ["::ffff:192.0.2.1"; "localhost"]%string eq_refl eq_refl)
    as (as4 & as6 & HA & HAAAA & Hmapped & Hbad & _).
  exists as4, as6. split; [exact HA|]. split; [exact HAAAA|].
  destruct (Hmapped "::ffff:192.0.2.1"%string 192%N 0%N 2%N 1%N
              (or_introl eq_refl) eq_refl) as [Hin Hout].
  destruct (Hbad "localhost"%string eq_refl) as [Hno4 Hno6].
  repeat split; assumption.
Defined.

Lemma soa_records_skip (before after : list dns.RR) (rr : dns.RR) :
  (forall soa, rr <> dns.RR_SOA soa) ->
  soa_records (before ++ rr :: after) = soa_records (before ++ after).
Proof.
  intro Hother. induction before as [|x before IH]; cbn [app soa_records].
  - destruct rr; try reflexivity. now contradiction (Hother r).
  - destruct x; now rewrite ?IH.
Qed.

(** C5. After a successful SOA query, [lookupSOA] returns one line
    ["NS: <ns>, Mbox: <mbox>, Serial: <serial>"] per SOA record of the
    answer section, in order, and no error; a record of any other type
    leaves the result as if it were not there.  The one SOA record of
    the example gives the one line of the example. *)
Theorem lookupSOA_formats_SOA_records
    (w : World) (domain : string) (st : State) (resp : dns.Msg) :
  sysExchange w (calls st) (Fqdn w domain) (StringToType w "SOA") upstream
  = Answered resp ->
  dns.Rcode resp = dns.RcodeSuccess ->
  fst (lookupSOA w domain st)
  = Ret (map format_SOA (soa_records (dns.Answer resp)), None)
  /\ (forall soa rest,
        dns.Answer resp = dns.RR_SOA soa :: rest ->
        fst (lookupSOA w domain st)
        = Ret (("NS: " ++ dns.soa_Ns soa ++ ", Mbox: " ++ dns.soa_Mbox soa
                ++ ", Serial: " ++ fmt.d (dns.soa_Serial soa))%string
               :: map format_SOA (soa_records rest), None))
  /\ (forall before rr after,
        dns.Answer resp = before ++ rr :: after ->
        (forall soa, rr <> dns.RR_SOA soa) ->
        fst (lookupSOA w domain st)
        = Ret (map format_SOA (soa_records (before ++ after)), None))
  /\ (forall refresh retry expire minttl,
        dns.Answer resp
        = [dns.RR_SOA {| dns.soa_Ns := "ns1.example.com";
                         dns.soa_Mbox := "admin.example.com";
                         dns.soa_Serial := 2024010100;
                         dns.soa_Refresh := refresh; dns.soa_Retry := retry;
                         dns.soa_Expire := expire; dns.soa_Minttl := minttl |}] ->
        fst (lookupSOA w domain st)
        = Ret (["NS: ns1.example.com, Mbox: admin.example.com, Serial: 2024010100"]%string,
               None)).
Proof.
  intros Hex Hrcode. rewrite lookupSOA_run, Hex, Hrcode. cbn [fst Z.eqb dns.RcodeSuccess].
  split; [reflexivity|]. split; [|split].
  - intros soa rest ->. reflexivity.
  - intros before rr after -> Hother. now rewrite soa_records_skip.
  - intros refresh retry expire minttl ->. reflexivity.
Qed.

Lemma lookupSOA_formats_SOA_records_witness :
  fst (lookupSOA (mock_world [] [dns.RR_other 5; dns.RR_SOA example_SOA])
                 "example.com" initial)
  = Ret (["NS: ns1.example.com, Mbox: admin.example.com, Serial: 2024010100"]%string,
         None).
Proof.
  apply (lookupSOA_formats_SOA_records
           (mock_world [] [dns.RR_other 5; dns.RR_SOA example_SOA])
           "example.com" initial
           {| dns.Rcode := dns.RcodeSuccess;
              dns.Answer := [dns.RR_other 5; dns.RR_SOA example_SOA] |});
    reflexivity.
Defined.

(** C6. [dnsQuery] makes one exchange with 8.8.8.8:53.  It returns the
    exchange's error exactly when the exchange fails, the error
    "invalid answer for <domain> type <qtype>" exactly when the exchange
    succeeds with a response code other than success, and the answer
    section with no error exactly when the exchange succeeds with the
    response code success. *)
Theorem dnsQuery_outcomes (w : World) (domain qtype : string) (st : State) :
  let answer :=
    sysExchange w (calls st) (Fqdn w domain) (StringToType w qtype) "8.8.8.8:53" in
  let returned := fst (dnsQuery w domain qtype st) in
  snd (dnsQuery w domain qtype st)
  = add_call (CallExchange (Fqdn w domain) (StringToType w qtype) "8.8.8.8:53") st
  /\ (forall msg,
        answer = Failed msg <-> returned = Ret ([], Some (LibError msg)))
  /\ ((exists resp, answer = Answered resp /\ dns.Rcode resp <> dns.RcodeSuccess)
      <-> returned
          = Ret ([], Some (Errorf ("invalid answer for " ++ domain ++ " type " ++ qtype))))
  /\ (forall rrs,
        (exists resp, answer = Answered resp
                      /\ dns.Rcode resp = dns.RcodeSuccess
                      /\ dns.Answer resp = rrs)
        <-> returned = Ret (rrs, None)).
Proof.
  intros answer returned. subst answer returned.
  rewrite dnsQuery_run. unfold upstream, invalid_answer. cbn [fst snd].
  split; [reflexivity|].
  destruct (sysExchange w (calls st) _ _ _) as [msg0|resp].
  - split; [|split].
    + intro msg. split; intro H; inversion H; reflexivity.
    + split; [intros (resp & H & _) | intro H]; discriminate.
    + intro rrs. split; [intros (resp & H & _) | intro H]; discriminate.
  - destruct (Z.eqb_spec (dns.Rcode resp) dns.RcodeSuccess) as [Hok|Hbad].
    + split; [|split].
      * intro msg. split; intro H; discriminate.
      * split; [intros (resp' & H & Hne) | intro H]; [|discriminate].
        inversion H; subst resp'. contradiction.
      * intro rrs. split.
        -- intros (resp' & H & _ & Hrrs). inversion H; subst resp'.
           now rewrite Hrrs.
        -- intro H. inversion H. exists resp. repeat split. exact Hok.
    + split; [|split].
      * intro msg. split; intro H; discriminate.
      * split; [reflexivity|]. intros _. exists resp. split; [reflexivity|exact Hbad].
      * intro rrs. split; [intros (resp' & H & Hok & _) | intro H]; [|discriminate].
        inversion H; subst resp'. contradiction.
Qed.

Lemma dnsQuery_outcomes_witness :
  fst (dnsQuery unreachable_world "example.com" "SRV" initial)
  = Ret ([], Some (LibError "i/o timeout"))
  /\ fst (dnsQuery (rcode_world 3) "example.com" "SRV" initial)
     = Ret ([], Some (Errorf "invalid answer for example.com type SRV"))
  /\ fst (dnsQuery (mock_world [] [dns.RR_other 5]) "example.com" "SRV" initial)
     = Ret ([dns.RR_other 5], None).
Proof.
  split; [|split].
  - apply (dnsQuery_outcomes unreachable_world "example.com" "SRV" initial).
    reflexivity.
  - apply (dnsQuery_outcomes (rcode_world 3) "example.com" "SRV" initial).
    eexists. split; [reflexivity | discriminate].
  - apply (dnsQuery_outcomes (mock_world [] [dns.RR_other 5]) "example.com" "SRV" initial).
    eexists. repeat split.
Defined.

(** ** The presenter *)

(** C9. For the outcome of one lookup the presenter appends to standard
    output: for an error, the line "<label>: error: <message>"; for one
    or more results, the line "<label>:" and then every result on a
    line of its own behind two spaces, in order; for no result and no
    error, nothing.  It does nothing else. *)
Theorem presenter_prints_exactly
    (label : string) (e : error) (rec : string) (recs more : list string) (st : State) :
  present label (more, Some e) st
  = (Ret tt, add_stdout (label ++ ": error: " ++ Error e ++ nl) st)
  /\ present label (rec :: recs, None) st
     = (Ret tt,
        add_stdout (label ++ ":" ++ nl
                    ++ String.concat EmptyString (map (fun r => ("  " ++ r ++ nl)%string)
                                             (rec :: recs))) st)
  /\ present label ([], None) st = (Ret tt, st)
  /\ present "MX" (["mail1.example.com (pref 10)"; "mail2.example.com (pref 20)"]%string,
                   None) initial
     = (Ret tt,
        {| calls := [];
           stdout := "MX:" ++ nl ++ "  mail1.example.com (pref 10)" ++ nl
                     ++ "  mail2.example.com (pref 20)" ++ nl;
           stderr := EmptyString |}).
Proof.
  rewrite !present_run. cbn [presented fst snd].
  split; [reflexivity|]. split; [reflexivity|].
  split; [now rewrite add_stdout_empty | reflexivity].
Qed.

(** * Further properties of the lookups and of whole runs *)

Lemma append_picked {A} (pick : dns.RR -> option A) (line : A -> string)
    (f : list string -> dns.RR -> list string) :
  (forall result rr,
     f result rr = match pick rr with
                   | Some a => result ++ [line a]
                   | None => result
                   end) ->
  forall rrs acc, fold_left f rrs acc = acc ++ map line (picked pick rrs).
Proof.
  intros Hf rrs. induction rrs as [|rr rrs IH]; intros acc; cbn [fold_left picked].
  - now rewrite app_nil_r.
  - rewrite IH, Hf. destruct (pick rr); [|reflexivity].
    cbn [map]. now rewrite <- app_assoc.
Qed.

Lemma picked_app {A} (pick : dns.RR -> option A) (xs ys : list dns.RR) :
  picked pick (xs ++ ys) = picked pick xs ++ picked pick ys.
Proof.
  induction xs as [|x xs IH]; cbn [app picked]; [reflexivity|].
  destruct (pick x); now rewrite IH.
Qed.

Lemma picked_length {A} (pick : dns.RR -> option A) (rrs : list dns.RR) :
  (List.length (picked pick rrs) <= List.length rrs)%nat.
Proof.
  induction rrs as [|rr rrs IH]; cbn [picked List.length]; [lia|].
  destruct (pick rr); cbn [List.length]; lia.
Qed.

Section MoreRuns.

Variable w : World.

Lemma lookupSRV_run domain st :
  lookupSRV w domain st
  = (Ret (direct_answer w (calls st) domain "SRV"
            (fun rrs => map format_SRV (picked as_SRV rrs))),
     add_call (CallExchange (Fqdn w domain) (StringToType w "SRV") upstream) st).
Proof.
  unfold lookupSRV, direct_answer. unfold bind at 1. rewrite dnsQuery_run.
  destruct (sysExchange w (calls st) _ _ _) as [msg|resp]; [reflexivity|].
  destruct (dns.Rcode resp =? dns.RcodeSuccess)%Z; [|reflexivity].
  unfold ret. rewrite (append_picked as_SRV format_SRV); [reflexivity|].
  intros result rr. now destruct rr.
Qed.

Lemma lookupCERT_run domain st :
  lookupCERT w domain st
  = (Ret (direct_answer w (calls st) domain "CERT"
            (fun rrs => map format_CERT (picked as_CERT rrs))),
     add_call (CallExchange (Fqdn w domain) (StringToType w "CERT") upstream) st).
Proof.
  unfold lookupCERT, direct_answer. unfold bind at 1. rewrite dnsQuery_run.
  destruct (sysExchange w (calls st) _ _ _) as [msg|resp]; [reflexivity|].
  destruct (dns.Rcode resp =? dns.RcodeSuccess)%Z; [|reflexivity].
  unfold ret. rewrite (append_picked as_CERT format_CERT); [reflexivity|].
  intros result rr. now destruct rr.
Qed.

Lemma lookupDNAME_run domain st :
  lookupDNAME w domain st
  = (Ret (direct_answer w (calls st) domain "DNAME"
            (fun rrs => map dns.dname_Target (picked as_DNAME rrs))),
     add_call (CallExchange (Fqdn w domain) (StringToType w "DNAME") upstream) st).
Proof.
  unfold lookupDNAME, direct_answer. unfold bind at 1. rewrite dnsQuery_run.
  destruct (sysExchange w (calls st) _ _ _) as [msg|resp]; [reflexivity|].
  destruct (dns.Rcode resp =? dns.RcodeSuccess)%Z; [|reflexivity].
  unfold ret. rewrite (append_picked as_DNAME dns.dname_Target); [reflexivity|].
  intros result rr. now destruct rr.
Qed.

(** The table, entry by entry, as functions of the calls made before. *)
Lemma lookupFuncs_denote target :
  table_denotes target (lookupFuncs w) (table_answers w target) (table_calls w target).
Proof.
  unfold lookupFuncs, table_answers, table_calls.
  repeat apply table_denotes_cons; try apply table_denotes_nil;
    intro st; cbn [lookup].
  - apply lookupA_run.
  - apply lookupAAAA_run.
  - apply lookupCNAME_run.
  - apply lookupMX_run.
  - apply lookupNS_run.
  - apply lookupTXT_run.
  - apply lookupSOA_run.
  - apply lookupSRV_run.
  - apply lookupCERT_run.
  - apply lookupDNAME_run.
Qed.

End MoreRuns.

(** The loop of [main] over any table whose lookups are such functions:
    the whole final state. *)
Lemma dispatch_output target table gs cs :
  table_denotes target table gs cs ->
  forall st,
    range table (fun lf => r <- lookup lf target ;; present (typeName lf) r) st
    = (Ret tt,
       {| calls := calls st ++ cs;
          stdout := stdout st
                    ++ output_of (map typeName table) (results_along gs cs (calls st));
          stderr := stderr st |}).
Proof.
  induction 1 as [|lf g c table gs cs Hlf _ IH]; intros st.
  - cbn. rewrite app_nil_r, string_app_nil_r. now destruct st.
  - cbn [range]. unfold bind at 1 2. rewrite Hlf, present_run, IH.
    cbn [calls stdout stderr add_stdout add_call map results_along output_of].
    now rewrite <- app_assoc, string_app_assoc.
Qed.

(** ** The resolver-backed lookups *)

(** X1. When the MX lookup of the resolver succeeds, [lookupMX] returns
    one line "<host> (pref <preference>)" per record, in the
    resolver's order and as many as there are records, and no error. *)
Theorem lookupMX_formats_in_order
    (w : World) (domain : string) (st : State) (mxs : list MX) :
  sysLookupMX w (calls st) domain = Answered mxs ->
  lookupMX w domain st
  = (Ret (map format_MX mxs, None), add_call (CallLookupMX domain) st)
  /\ (forall n mx,
        nth_error mxs n = Some mx ->
        nth_error (map format_MX mxs) n
        = Some (mx_Host mx ++ " (pref " ++ fmt.d (mx_Pref mx) ++ ")")%string)
  /\ List.length (map format_MX mxs) = List.length mxs.
Proof.
  intro H. rewrite lookupMX_run, H. cbn [answer_of].
  split; [reflexivity|]. split; [|apply length_map].
  intros n mx Hn. rewrite nth_error_map, Hn. reflexivity.
Qed.

Lemma lookupMX_formats_in_order_witness :
  fst (lookupMX (mail_world [ {| mx_Host := "mail.example.com"; mx_Pref := 10 |};
                              {| mx_Host := "backup.example.com"; mx_Pref := 20 |} ] [])
                "example.com" initial)
  = Ret (["mail.example.com (pref 10)"; "backup.example.com (pref 20)"]%string, None).
Proof.
  pose proof (lookupMX_formats_in_order
                (mail_world [ {| mx_Host := "mail.example.com"; mx_Pref := 10 |};
                              {| mx_Host := "backup.example.com"; mx_Pref := 20 |} ] [])
                "example.com" initial _ eq_refl) as (Hrun & _).
  rewrite Hrun. reflexivity.
Defined.

(** X2. When the NS lookup of the resolver succeeds, [lookupNS] returns
    the bare host names of the records, in the resolver's order, and
    no error. *)
Theorem lookupNS_returns_hosts
    (w : World) (domain : string) (st : State) (nss : list NS) :
  sysLookupNS w (calls st) domain = Answered nss ->
  lookupNS w domain st
  = (Ret (map ns_Host nss, None), add_call (CallLookupNS domain) st).
Proof.
  intro H. rewrite lookupNS_run, H. reflexivity.
Qed.

Lemma lookupNS_returns_hosts_witness :
  fst (lookupNS (mail_world [] [ {| ns_Host := "a.iana-servers.net." |};
                                 {| ns_Host := "b.iana-servers.net." |} ])
                "example.com" initial)
  = Ret (["a.iana-servers.net."; "b.iana-servers.net."]%string, None).
Proof.
  pose proof (lookupNS_returns_hosts
                (mail_world [] [ {| ns_Host := "a.iana-servers.net." |};
                                 {| ns_Host := "b.iana-servers.net." |} ])
                "example.com" initial _ eq_refl) as Hrun.
  rewrite Hrun. reflexivity.
Defined.

Lemma presented_error_not_empty label e recs :
  presented label (recs, Some e) <> EmptyString.
Proof.
  cbn [presented fst snd]. unfold error_line. destruct label; discriminate.
Qed.

Lemma presented_block_not_empty label rec recs :
  presented label (rec :: recs, None) <> EmptyString.
Proof.
  cbn [presented fst snd]. unfold block. destruct label; discriminate.
Qed.

(** X3. [lookupCNAME] is never silent: it returns either an error and no
    record, or exactly one record and no error, so the presenter
    always prints something for it. *)
Theorem lookupCNAME_is_never_silent (w : World) (domain label : string) (st : State) :
  exists recs err,
    fst (lookupCNAME w domain st) = Ret (recs, err)
    /\ ((recs = [] /\ err <> None) \/ (List.length recs = 1%nat /\ err = None))
    /\ presented label (recs, err) <> EmptyString.
Proof.
  rewrite lookupCNAME_run. cbn [fst].
  destruct (sysLookupCNAME w (calls st) domain) as [msg|cname]; cbn [answer_of].
  - do 2 eexists. split; [reflexivity|]. split.
    + left. split; [reflexivity | discriminate].
    + apply presented_error_not_empty.
  - do 2 eexists. split; [reflexivity|]. split.
    + right. split; reflexivity.
    + apply presented_block_not_empty.
Qed.

(** X4. A table lookup that asks the system resolver returns an error
    exactly when the resolver's call fails, the error is the resolver's
    own, and then there are no records. *)
Theorem resolver_failures_are_returned (w : World) :
  Forall (fun entry =>
            forall domain st,
            exists recs,
              fst (fst entry domain st)
              = Ret (recs, snd entry (calls st) domain)
              /\ (snd entry (calls st) domain <> None -> recs = []))
         (resolver_backed w).
Proof.
  unfold resolver_backed.
  repeat apply Forall_cons; try apply Forall_nil; intros domain st; cbn [fst snd].
  - rewrite lookupA_run. cbn [fst].
    destruct (sysLookupHost w (calls st) domain); cbn;
      eexists; (split; [reflexivity|]); intro H; [reflexivity | now contradiction H].
  - rewrite lookupAAAA_run. cbn [fst].
    destruct (sysLookupHost w (calls st) domain); cbn;
      eexists; (split; [reflexivity|]); intro H; [reflexivity | now contradiction H].
  - rewrite lookupCNAME_run. cbn [fst].
    destruct (sysLookupCNAME w (calls st) domain); cbn;
      eexists; (split; [reflexivity|]); intro H; [reflexivity | now contradiction H].
  - rewrite lookupMX_run. cbn [fst].
    destruct (sysLookupMX w (calls st) domain); cbn;
      eexists; (split; [reflexivity|]); intro H; [reflexivity | now contradiction H].
  - rewrite lookupNS_run. cbn [fst].
    destruct (sysLookupNS w (calls st) domain); cbn;
      eexists; (split; [reflexivity|]); intro H; [reflexivity | now contradiction H].
  - rewrite lookupTXT_run. cbn [fst].
    destruct (sysLookupTXT w (calls st) domain); cbn;
      eexists; (split; [reflexivity|]); intro H; [reflexivity | now contradiction H].
Qed.

(** ** The direct-query lookups *)

(** X5. After a successful SRV query, [lookupSRV] returns one line
    "<target> <port> <priority> <weight>" per SRV record of the answer
    section, in order, and no error; a record of another type leaves
    the result as if it were not there, so there are never more lines
    than records. *)
Theorem lookupSRV_formats_SRV_records
    (w : World) (domain : string) (st : State) (resp : dns.Msg) :
  sysExchange w (calls st) (Fqdn w domain) (StringToType w "SRV") upstream
  = Answered resp ->
  dns.Rcode resp = dns.RcodeSuccess ->
  exists lines,
    lookupSRV w domain st
    = (Ret (lines, None),
       add_call (CallExchange (Fqdn w domain) (StringToType w "SRV") "8.8.8.8:53") st)
    /\ lines = map format_SRV (picked as_SRV (dns.Answer resp))
    /\ (List.length lines <= List.length (dns.Answer resp))%nat
    /\ (forall srv rest,
          dns.Answer resp = dns.RR_SRV srv :: rest ->
          lines = (dns.srv_Target srv ++ " " ++ fmt.d (dns.srv_Port srv)
                   ++ " " ++ fmt.d (dns.srv_Priority srv)
                   ++ " " ++ fmt.d (dns.srv_Weight srv))%string
                  :: map format_SRV (picked as_SRV rest))
    /\ (forall before rr after,
          dns.Answer resp = before ++ rr :: after ->
          (forall srv, rr <> dns.RR_SRV srv) ->
          lines = map format_SRV (picked as_SRV (before ++ after))).
Proof.
  intros Hex Hrcode. rewrite lookupSRV_run. unfold direct_answer.
  rewrite Hex, Hrcode. cbn [Z.eqb dns.RcodeSuccess]. eexists.
  split; [reflexivity|]. split; [reflexivity|]. split; [|split].
  - rewrite length_map. apply picked_length.
  - intros srv rest ->. reflexivity.
  - intros before rr after -> Hother. rewrite !picked_app. cbn [picked].
    destruct rr; try reflexivity. now contradiction (Hother r).
Qed.

Lemma lookupSRV_formats_SRV_records_witness :
  fst (lookupSRV (mock_world [] [dns.RR_other 5; dns.RR_SRV example_SRV;
                                 dns.RR_SOA example_SOA])
                 "_sip._tcp.example.com" initial)
  = Ret (["sip.example.com. 5060 10 60"]%string, None).
Proof.
  destruct (lookupSRV_formats_SRV_records
              (mock_world [] [dns.RR_other 5; dns.RR_SRV example_SRV;
                              dns.RR_SOA example_SOA])
              "_sip._tcp.example.com" initial _ eq_refl eq_refl)
    as (lines & Hrun & Hlines & _).
  rewrite Hrun, Hlines. reflexivity.
Defined.

(** X6. After a successful CERT query, [lookupCERT] returns one line
    "Type: <type>, KeyTag: <tag>, Algorithm: <algorithm>, Certificate:
    <certificate in lower-case hexadecimal>" per CERT record of the
    answer section, in order, and no error; records of other types are
    passed over. *)
Theorem lookupCERT_formats_CERT_records
    (w : World) (domain : string) (st : State) (resp : dns.Msg) :
  sysExchange w (calls st) (Fqdn w domain) (StringToType w "CERT") upstream
  = Answered resp ->
  dns.Rcode resp = dns.RcodeSuccess ->
  exists lines,
    lookupCERT w domain st
    = (Ret (lines, None),
       add_call (CallExchange (Fqdn w domain) (StringToType w "CERT") "8.8.8.8:53") st)
    /\ lines = map format_CERT (picked as_CERT (dns.Answer resp))
    /\ (List.length lines <= List.length (dns.Answer resp))%nat
    /\ (forall cert rest,
          dns.Answer resp = dns.RR_CERT cert :: rest ->
          lines = ("Type: " ++ fmt.d (dns.cert_Type cert)
                   ++ ", KeyTag: " ++ fmt.d (dns.cert_KeyTag cert)
                   ++ ", Algorithm: " ++ fmt.d (dns.cert_Algorithm cert)
                   ++ ", Certificate: " ++ fmt.x (dns.cert_Certificate cert))%string
                  :: map format_CERT (picked as_CERT rest))
    /\ (forall before rr after,
          dns.Answer resp = before ++ rr :: after ->
          (forall cert, rr <> dns.RR_CERT cert) ->
          lines = map format_CERT (picked as_CERT (before ++ after))).
Proof.
  intros Hex Hrcode. rewrite lookupCERT_run. unfold direct_answer.
  rewrite Hex, Hrcode. cbn [Z.eqb dns.RcodeSuccess]. eexists.
  split; [reflexivity|]. split; [reflexivity|]. split; [|split].
  - rewrite length_map. apply picked_length.
  - intros cert rest ->. reflexivity.
  - intros before rr after -> Hother. rewrite !picked_app. cbn [picked].
    destruct rr; try reflexivity. now contradiction (Hother r).
Qed.

Lemma lookupCERT_formats_CERT_records_witness :
  fst (lookupCERT (mock_world [] [dns.RR_CERT example_CERT; dns.RR_other 46])
                  "example.com" initial)
  = Ret (["Type: 1, KeyTag: 12345, Algorithm: 8, Certificate: 4d494942"]%string, None).
Proof.
  destruct (lookupCERT_formats_CERT_records
              (mock_world [] [dns.RR_CERT example_CERT; dns.RR_other 46])
              "example.com" initial _ eq_refl eq_refl)
    as (lines & Hrun & Hlines & _).
  rewrite Hrun, Hlines. reflexivity.
Defined.

(** X7. After a successful DNAME query, [lookupDNAME] returns the bare
    target of every DNAME record of the answer section, in order, and
    no error; records of other types are passed over. *)
Theorem lookupDNAME_returns_targets
    (w : World) (domain : string) (st : State) (resp : dns.Msg) :
  sysExchange w (calls st) (Fqdn w domain) (StringToType w "DNAME") upstream
  = Answered resp ->
  dns.Rcode resp = dns.RcodeSuccess ->
  exists lines,
    lookupDNAME w domain st
    = (Ret (lines, None),
       add_call (CallExchange (Fqdn w domain) (StringToType w "DNAME") "8.8.8.8:53") st)
    /\ lines = map dns.dname_Target (picked as_DNAME (dns.Answer resp))
    /\ (List.length lines <= List.length (dns.Answer resp))%nat
    /\ (forall before rr after,
          dns.Answer resp = before ++ rr :: after ->
          (forall dname, rr <> dns.RR_DNAME dname) ->
          lines = map dns.dname_Target (picked as_DNAME (before ++ after))).
Proof.
  intros Hex Hrcode. rewrite lookupDNAME_run. unfold direct_answer.
  rewrite Hex, Hrcode. cbn [Z.eqb dns.RcodeSuccess]. eexists.
  split; [reflexivity|]. split; [reflexivity|]. split.
  - rewrite length_map. apply picked_length.
  - intros before rr after -> Hother. rewrite !picked_app. cbn [picked].
    destruct rr; try reflexivity. now contradiction (Hother r).
Qed.

Lemma lookupDNAME_returns_targets_witness :
  fst (lookupDNAME (mock_world [] [dns.RR_DNAME {| dns.dname_Target := "example.net." |};
                                   dns.RR_other 5])
                   "example.com" initial)
  = Ret (["example.net."]%string, None).
Proof.
  destruct (lookupDNAME_returns_targets
              (mock_world [] [dns.RR_DNAME {| dns.dname_Target := "example.net." |};
                              dns.RR_other 5])
              "example.com" initial _ eq_refl eq_refl)
    as (lines & Hrun & Hlines & _).
  rewrite Hrun, Hlines. reflexivity.
Defined.

(** X8. When the upstream answers a lookup's own question with a
    response code other than success, that lookup makes its one
    exchange and returns no record and the error "invalid answer for
    <domain> type <T>" that names its own record type; this holds for
    each of the four direct-query lookups, whatever the upstream does
    with the questions of the other three. *)
Theorem direct_lookups_report_their_type (w : World) (domain : string) (st : State) :
  (forall resp,
     sysExchange w (calls st) (Fqdn w domain) (StringToType w "SOA") "8.8.8.8:53"
     = Answered resp ->
     dns.Rcode resp <> dns.RcodeSuccess ->
     lookupSOA w domain st
     = (Ret ([], Some (Errorf ("invalid answer for " ++ domain ++ " type SOA"))),
        add_call (CallExchange (Fqdn w domain) (StringToType w "SOA") "8.8.8.8:53") st))
  /\ (forall resp,
     sysExchange w (calls st) (Fqdn w domain) (StringToType w "SRV") "8.8.8.8:53"
     = Answered resp ->
     dns.Rcode resp <> dns.RcodeSuccess ->
     lookupSRV w domain st
     = (Ret ([], Some (Errorf ("invalid answer for " ++ domain ++ " type SRV"))),
        add_call (CallExchange (Fqdn w domain) (StringToType w "SRV") "8.8.8.8:53") st))
  /\ (forall resp,
     sysExchange w (calls st) (Fqdn w domain) (StringToType w "CERT") "8.8.8.8:53"
     = Answered resp ->
     dns.Rcode resp <> dns.RcodeSuccess ->
     lookupCERT w domain st
     = (Ret ([], Some (Errorf ("invalid answer for " ++ domain ++ " type CERT"))),
        add_call (CallExchange (Fqdn w domain) (StringToType w "CERT") "8.8.8.8:53") st))
  /\ (forall resp,
     sysExchange w (calls st) (Fqdn w domain) (StringToType w "DNAME") "8.8.8.8:53"
     = Answered resp ->
     dns.Rcode resp <> dns.RcodeSuccess ->
     lookupDNAME w domain st
     = (Ret ([], Some (Errorf ("invalid answer for " ++ domain ++ " type DNAME"))),
        add_call (CallExchange (Fqdn w domain) (StringToType w "DNAME") "8.8.8.8:53") st)).
Proof.
  rewrite lookupSOA_run, lookupSRV_run, lookupCERT_run, lookupDNAME_run.
  unfold direct_answer, invalid_answer, upstream.
  repeat split; intros resp Hex Hbad; rewrite Hex;
    apply Z.eqb_neq in Hbad; now rewrite Hbad.
Qed.

(** In a world that refuses SOA questions only, [lookupSOA] reports its
    refusal; in a world that refuses everything, [lookupDNAME] reports
    its own. *)
Lemma direct_lookups_report_their_type_witness :
  fst (lookupSOA SOA_refusing_world "example.com" initial)
  = Ret ([], Some (Errorf "invalid answer for example.com type SOA"))
  /\ fst (lookupDNAME (rcode_world 2) "example.com" initial)
     = Ret ([], Some (Errorf "invalid answer for example.com type DNAME")).
Proof.
  split.
  - destruct (direct_lookups_report_their_type SOA_refusing_world "example.com" initial)
      as (HSOA & _).
    rewrite (HSOA {| dns.Rcode := 3; dns.Answer := [] |} eq_refl); [reflexivity|].
    discriminate.
  - destruct (direct_lookups_report_their_type (rcode_world 2) "example.com" initial)
      as (_ & _ & _ & HDNAME).
    rewrite (HDNAME {| dns.Rcode := 2; dns.Answer := [] |} eq_refl); [reflexivity|].
    discriminate.
Defined.

(** ** A and AAAA together *)

Lemma parses_as_IPv4_is_literal (a : string) :
  parses_as_IPv4 a = true -> is_IP_literal a = true.
Proof.
  unfold parses_as_IPv4, is_IP_literal.
  now destruct (net.ParseIP a).
Qed.

Lemma A_AAAA_lengths (addrs : list string) :
  (List.length (filter parses_as_IPv4 addrs)
   + List.length (filter (fun a => parses_as_IPv6 a && negb (parses_as_IPv4 a)) addrs)
   = List.length (filter is_IP_literal addrs))%nat.
Proof.
  induction addrs as [|a addrs IH]; [reflexivity|]. cbn [filter].
  rewrite parses_as_IPv6_iff_literal. fold (is_IP_literal a).
  destruct (parses_as_IPv4 a) eqn:H4.
  - rewrite (parses_as_IPv4_is_literal a H4). cbn [andb negb List.length]. lia.
  - destruct (is_IP_literal a); cbn [andb negb List.length]; lia.
Qed.

(** X9. When the host lookup returns [addrs], no address is both an A
    and an AAAA result; an address of [addrs] is in one of the two
    results exactly when it is an IP literal; and the two results
    together have as many entries as [addrs] has IP literals. *)
Theorem A_and_AAAA_split_the_literals
    (w : World) (domain : string) (st1 st2 : State) (addrs : list string) :
  sysLookupHost w (calls st1) domain = Answered addrs ->
  sysLookupHost w (calls st2) domain = Answered addrs ->
  exists as4 as6,
    fst (lookupA w domain st1) = Ret (as4, None)
    /\ fst (lookupAAAA w domain st2) = Ret (as6, None)
    /\ (forall a, In a as4 -> ~ In a as6)
    /\ (forall a, In a addrs ->
                  (is_nil (net.ParseIP a) = false <-> In a as4 \/ In a as6))
    /\ (List.length as4 + List.length as6
        = List.length (filter (fun a => negb (is_nil (net.ParseIP a))) addrs))%nat
    /\ (List.length as4 + List.length as6 <= List.length addrs)%nat.
Proof.
  intros H1 H2. rewrite lookupA_run, lookupAAAA_run, H1, H2. cbn [fst answer_of].
  do 2 eexists. split; [reflexivity|]. split; [reflexivity|].
  split; [|split; [|split]].
  - intros a H4 H6. rewrite filter_In in H4, H6.
    destruct H4 as [_ H4], H6 as [_ H6]. rewrite H4 in H6.
    now rewrite andb_false_r in H6.
  - intros a Hin. rewrite !filter_In, parses_as_IPv6_iff_literal. split.
    + intro Hlit. rewrite Hlit. cbn [negb andb].
      destruct (parses_as_IPv4 a); [left | right]; split; auto.
    + intros [[_ H4] | [_ H6]].
      * apply parses_as_IPv4_is_literal in H4. unfold is_IP_literal in H4.
        now destruct (is_nil (net.ParseIP a)).
      * apply andb_prop in H6. destruct H6 as [H6 _].
        now destruct (is_nil (net.ParseIP a)).
  - apply A_AAAA_lengths.
  - rewrite A_AAAA_lengths. apply filter_length_le.
Qed.

Lemma A_and_AAAA_split_the_literals_witness :
  exists as4 as6,
    fst (lookupA (mock_world ["192.0.2.7"; "localhost"; "2001:db8::7"]%string [])
                 "example.com" initial) = Ret (as4, None)
    /\ fst (lookupAAAA (mock_world ["192.0.2.7"; "localhost"; "2001:db8::7"]%string [])
                       "example.com" initial) = Ret (as6, None)
    /\ (List.length as4 + List.length as6 = 2)%nat.
Proof.
  destruct (A_and_AAAA_split_the_literals
              (mock_world ["192.0.2.7"; "localhost"; "2001:db8::7"]%string [])
              "example.com" initial initial _ eq_refl eq_refl)
    as (as4 & as6 & HA & HAAAA & _ & _ & Hlen & _).
  exists as4, as6. split; [exact HA|]. split; [exact HAAAA | exact Hlen].
Defined.

(** ** All lookups *)

Ltac settle_lookup :=
  do 3 eexists; (split; [reflexivity|]);
  (split; [right; eexists; reflexivity|]);
  ((now right) || (now left)).

Ltac settle_direct_lookup w st :=
  unfold direct_answer;
  destruct (sysExchange w (calls st) _ _ _) as [msg|resp];
  [|destruct (dns.Rcode resp =? dns.RcodeSuccess)%Z];
  settle_lookup.

(** X10. Each of the eleven lookup functions returns to its caller in
    every world (none ends the process), writes nothing to standard
    output or standard error, makes one call at most, and never
    returns records together with an error. *)
Theorem every_lookup_is_well_behaved (w : World) :
  List.length (all_lookups w) = 11%nat
  /\ Forall well_behaved (all_lookups w).
Proof.
  split; [reflexivity|].
  unfold all_lookups, lookupFuncs. cbn [map lookup].
  repeat apply Forall_cons; try apply Forall_nil; intros domain st.
  - rewrite lookupPTR_run. destruct (is_nil (net.ParseIP domain)).
    + do 3 eexists. split; [reflexivity|]. split; [now left | now right].
    + destruct (sysLookupAddr w (calls st) domain); cbn [answer_of]; settle_lookup.
  - rewrite lookupA_run.
    destruct (sysLookupHost w (calls st) domain); cbn [answer_of]; settle_lookup.
  - rewrite lookupAAAA_run.
    destruct (sysLookupHost w (calls st) domain); cbn [answer_of]; settle_lookup.
  - rewrite lookupCNAME_run.
    destruct (sysLookupCNAME w (calls st) domain); cbn [answer_of]; settle_lookup.
  - rewrite lookupMX_run.
    destruct (sysLookupMX w (calls st) domain); cbn [answer_of]; settle_lookup.
  - rewrite lookupNS_run.
    destruct (sysLookupNS w (calls st) domain); cbn [answer_of]; settle_lookup.
  - rewrite lookupTXT_run.
    destruct (sysLookupTXT w (calls st) domain); cbn [answer_of]; settle_lookup.
  - rewrite lookupSOA_run.
    destruct (sysExchange w (calls st) _ _ _) as [msg|resp];
      [|destruct (dns.Rcode resp =? dns.RcodeSuccess)%Z]; settle_lookup.
  - rewrite lookupSRV_run. settle_direct_lookup w st.
  - rewrite lookupCERT_run. settle_direct_lookup w st.
  - rewrite lookupDNAME_run. settle_direct_lookup w st.
Qed.

(** ** Whole runs *)

(** C2. With exactly one argument, exactly one path runs, and the
    whole final state says so.  For an IP literal the calls of the run
    are the one reverse lookup of [lookupPTR] and the output is the
    header and what the presenter prints for the PTR result: no table
    lookup has run.  For any other target the calls are the ten of the
    table and the output is the header and what the presenter prints
    for the ten table results in table order: nothing of the PTR path,
    neither a reverse lookup nor the validation error of [lookupPTR],
    is in it.  Each table entry runs its own lookup, once: entry by
    entry the table's lookup is the function of that record type and
    makes that entry's call, there are as many calls as entries, none
    of them is a reverse lookup, and the labels are pairwise distinct. *)
Theorem one_path_per_run (w : World) (arg0 target : string) (st : State) :
  main w [arg0; target] st
  = (Ret tt,
     if is_nil (net.ParseIP target)
     then {| calls := calls st ++ table_calls w target;
             stdout := stdout st
                       ++ header target
                       ++ output_of table_labels
                            (results_along (table_answers w target)
                                           (table_calls w target) (calls st));
             stderr := stderr st |}
     else {| calls := calls st ++ [CallLookupAddr target];
             stdout := stdout st
                       ++ header target
                       ++ presented "PTR"
                            (answer_of (sysLookupAddr w (calls st) target)
                                       (fun ptr => ptr));
             stderr := stderr st |})
  /\ (is_nil (net.ParseIP target) = false ->
      denotes (lookupPTR w target)
              (fun h => answer_of (sysLookupAddr w h target) (fun ptr => ptr))
              (CallLookupAddr target))
  /\ (is_nil (net.ParseIP target) = true ->
      forall st0, lookupPTR w target st0
                  = (Ret ([], Some (Errorf "PTR lookup requires an IP address")), st0))
  /\ table_denotes target (lookupFuncs w) (table_answers w target) (table_calls w target)
  /\ map typeName (lookupFuncs w) = table_labels
  /\ NoDup table_labels
  /\ List.length (table_calls w target) = List.length (lookupFuncs w)
  /\ forallb (fun c => negb (is_reverse_lookup c)) (table_calls w target) = true.
Proof.
  split; [|split; [|split; [|split; [|split; [|split; [|split]]]]]].
  - rewrite main_one_argument.
    destruct (is_nil (net.ParseIP target)) eqn:Hip; cbn [negb].
    + rewrite (dispatch_output target _ _ _ (lookupFuncs_denote w target)).
      cbn [calls stdout stderr add_stdout].
      change (map typeName (lookupFuncs w)) with table_labels.
      now rewrite string_app_assoc.
    + unfold bind. rewrite lookupPTR_run, Hip, present_run.
      unfold add_stdout, add_call. cbn [calls stdout stderr].
      now rewrite string_app_assoc.
  - intros Hip st0. rewrite lookupPTR_run, Hip. reflexivity.
  - intros Hip st0. rewrite lookupPTR_run, Hip. reflexivity.
  - apply lookupFuncs_denote.
  - reflexivity.
  - unfold table_labels. repeat constructor; cbn; intuition discriminate.
  - reflexivity.
  - reflexivity.
Qed.

(** Both paths on concrete worlds: the IP path prints the PTR block and
    nothing of the table; the domain path, in a world where every call
    fails, prints the ten error lines of the table and no PTR line. *)
Lemma one_path_per_run_witness :
  main (mock_world [] []) ["godns"; "8.8.8.8"]%string initial
  = (Ret tt,
     {| calls := [CallLookupAddr "8.8.8.8"];
        stdout := "DNS records for 8.8.8.8:" ++ nl ++ nl
                  ++ "PTR:" ++ nl ++ "  dns.google." ++ nl;
        stderr := EmptyString |})
  /\ main unreachable_world ["godns"; "example.com"]%string initial
     = (Ret tt,
        {| calls := table_calls unreachable_world "example.com";
           stdout := "DNS records for example.com:" ++ nl ++ nl
                     ++ "A: error: network is unreachable" ++ nl
                     ++ "AAAA: error: network is unreachable" ++ nl
                     ++ "CNAME: error: network is unreachable" ++ nl
                     ++ "MX: error: network is unreachable" ++ nl
                     ++ "NS: error: network is unreachable" ++ nl
                     ++ "TXT: error: network is unreachable" ++ nl
                     ++ "SOA: error: i/o timeout" ++ nl
                     ++ "SRV: error: i/o timeout" ++ nl
                     ++ "CERT: error: i/o timeout" ++ nl
                     ++ "DNAME: error: i/o timeout" ++ nl;
           stderr := EmptyString |}).
Proof.
  split.
  - destruct (one_path_per_run (mock_world [] []) "godns" "8.8.8.8" initial)
      as (Hrun & _).
    rewrite Hrun. reflexivity.
  - destruct (one_path_per_run unreachable_world "godns" "example.com" initial)
      as (Hrun & _).
    rewrite Hrun. reflexivity.
Defined.

(** X11. For an IP literal, [main] makes the one reverse lookup and
    prints the header followed by: the line "PTR: error: <message>"
    when the reverse lookup failed, nothing when it returned no name,
    and the block "PTR:" with one indented line per name otherwise.
    Nothing goes to standard error, and the validation error of
    [lookupPTR] is never printed. *)
Theorem ip_run_prints_PTR_only (w : World) (arg0 target : string) (st : State) :
  is_nil (net.ParseIP target) = false ->
  main w [arg0; target] st
  = (Ret tt,
     {| calls := calls st ++ [CallLookupAddr target];
        stdout := stdout st
                  ++ ("DNS records for " ++ target ++ ":" ++ nl ++ nl)
                  ++ match sysLookupAddr w (calls st) target with
                     | Failed msg => "PTR: error: " ++ msg ++ nl
                     | Answered [] => EmptyString
                     | Answered (name :: names) =>
                         "PTR:" ++ nl
                         ++ String.concat EmptyString
                              (map (fun rec => ("  " ++ rec ++ nl)%string) (name :: names))
                     end;
        stderr := stderr st |}).
Proof.
  intro Hip. rewrite main_one_argument, Hip. cbn [negb].
  unfold bind. rewrite lookupPTR_run, Hip, present_run.
  unfold add_stdout, add_call, header. cbn [calls stdout stderr].
  rewrite string_app_assoc. do 3 f_equal.
  destruct (sysLookupAddr w (calls st) target) as [msg|[|name names]]; reflexivity.
Qed.

Lemma ip_run_prints_PTR_only_witness :
  main (mock_world [] []) ["godns"; "8.8.8.8"]%string initial
  = (Ret tt,
     {| calls := [CallLookupAddr "8.8.8.8"];
        stdout := "DNS records for 8.8.8.8:" ++ nl ++ nl
                  ++ "PTR:" ++ nl ++ "  dns.google." ++ nl;
        stderr := EmptyString |}).
Proof.
  rewrite (ip_run_prints_PTR_only (mock_world [] []) "godns" "8.8.8.8" initial eq_refl).
  reflexivity.
Defined.

(** X12. For a target that is not an IP literal, [main] ends in the
    state whose calls are the ten of the table, whose standard output
    is the header followed, in table order, by what the presenter
    prints for the result of each lookup, each lookup being answered
    after the calls made before it, and whose standard error is
    untouched. *)
Theorem domain_run_output (w : World) (arg0 target : string) (st : State) :
  is_nil (net.ParseIP target) = true ->
  main w [arg0; target] st
  = (Ret tt,
     {| calls := calls st ++ table_calls w target;
        stdout := stdout st
                  ++ ("DNS records for " ++ target ++ ":" ++ nl ++ nl)
                  ++ output_of table_labels
                       (results_along (table_answers w target) (table_calls w target)
                                      (calls st));
        stderr := stderr st |}).
Proof.
  intro Hdomain. rewrite main_one_argument, Hdomain. cbn [negb].
  rewrite (dispatch_output target _ _ _ (lookupFuncs_denote w target)).
  cbn [calls stdout stderr add_stdout]. unfold header.
  now rewrite string_app_assoc.
Qed.

Lemma domain_run_output_witness :
  stdout (snd (main (mock_world ["93.184.216.34"; "2606:2800:220:1:248:1893:25c8:1946"]%string
                                [dns.RR_SOA example_SOA])
                    ["godns"; "example.com"]%string initial))
  = ("DNS records for example.com:" ++ nl ++ nl
     ++ "A:" ++ nl ++ "  93.184.216.34" ++ nl
     ++ "AAAA:" ++ nl ++ "  2606:2800:220:1:248:1893:25c8:1946" ++ nl
     ++ "CNAME: error: no such host" ++ nl
     ++ "MX:" ++ nl ++ "  mail.example.com (pref 10)" ++ nl
     ++ "SOA:" ++ nl
     ++ "  NS: ns1.example.com, Mbox: admin.example.com, Serial: 2024010100" ++ nl)%string.
Proof.
  rewrite (domain_run_output
             (mock_world ["93.184.216.34"; "2606:2800:220:1:248:1893:25c8:1946"]%string
                         [dns.RR_SOA example_SOA])
             "godns" "example.com" initial eq_refl).
  reflexivity.
Defined.

(** X13. The exit status of a run depends on the number of arguments
    only: it is 0 when [os.Args] has two entries and 1 otherwise.  A
    run makes no call in the second case, and one call or ten in the
    first. *)
Theorem exit_status_by_argument_count (w : World) (Args : list string) (st : State) :
  exit_status (fst (main w Args st))
  = (if (List.length Args =? 2)%nat then 0 else 1)%Z
  /\ List.length (calls (snd (main w Args st)))
     = (List.length (calls st)
        + (if (List.length Args =? 2)%nat
           then if is_nil (net.ParseIP (nth 1 Args EmptyString)) then 10 else 1
           else 0))%nat.
Proof.
  destruct (Nat.eqb_spec (List.length Args) 2) as [Hlen|Hlen].
  - destruct Args as [|arg0 [|target [|extra rest]]]; try discriminate Hlen.
    destruct (main_one_argument_run w arg0 target st) as (st' & Hrun & Hcalls & _).
    rewrite Hrun. cbn [fst snd exit_status nth]. split; [reflexivity|].
    rewrite Hcalls, length_app.
    now destruct (is_nil (net.ParseIP target)).
  - rewrite (main_wrong_arguments w Args st Hlen).
    cbn [fst snd exit_status add_stderr calls]. split; [reflexivity | lia].
Qed.

Lemma ends_with_newline_app (a b : string) :
  ends_with_newline b -> ends_with_newline (a ++ b).
Proof.
  intros [body ->]. exists (a ++ body)%string. now rewrite string_app_assoc.
Qed.

Lemma indented_lines_end (rec : string) (recs : list string) :
  ends_with_newline
    (String.concat EmptyString (map (fun r => ("  " ++ r ++ nl)%string) (rec :: recs))).
Proof.
  revert rec. induction recs as [|next recs IH]; intro rec.
  - exists ("  " ++ rec)%string. reflexivity.
  - change (ends_with_newline
              (("  " ++ rec ++ nl)
               ++ String.concat EmptyString
                    (map (fun r => ("  " ++ r ++ nl)%string) (next :: recs)))%string).
    apply ends_with_newline_app, IH.
Qed.

Lemma presented_lines (label : string) (r : records) :
  presented label r = EmptyString \/ ends_with_newline (presented label r).
Proof.
  destruct r as [recs [e|]]; cbn [presented fst snd].
  - right. unfold error_line. exists (label ++ ": error: " ++ Error e)%string.
    now rewrite !string_app_assoc.
  - destruct recs as [|rec recs]; [now left | right].
    unfold block. do 3 apply ends_with_newline_app. apply indented_lines_end.
Qed.

Lemma output_of_lines (labels : list string) (rs : list records) :
  output_of labels rs = EmptyString \/ ends_with_newline (output_of labels rs).
Proof.
  revert rs. induction labels as [|label labels IH]; intros [|r rs];
    cbn [output_of]; try (now left).
  destruct (IH rs) as [Hrest|Hrest].
  - rewrite Hrest, string_app_nil_r. apply presented_lines.
  - right. now apply ends_with_newline_app.
Qed.

(** X14. Whatever the world answers, a run with one argument only adds
    complete lines to standard output: what it has printed when it
    returns begins with the header and ends with a newline. *)
Theorem one_argument_prints_complete_lines
    (w : World) (arg0 target : string) (st : State) :
  exists rest,
    stdout (snd (main w [arg0; target] st))
    = (stdout st ++ ("DNS records for " ++ target ++ ":" ++ nl ++ nl) ++ rest)%string
    /\ ends_with_newline (("DNS records for " ++ target ++ ":" ++ nl ++ nl) ++ rest).
Proof.
  assert (Hheader : forall rest,
             rest = EmptyString \/ ends_with_newline rest ->
             ends_with_newline (header target ++ rest)).
  { intros rest [-> | Hrest].
    - rewrite string_app_nil_r.
      exists ("DNS records for " ++ target ++ ":" ++ nl)%string.
      unfold header. now rewrite !string_app_assoc.
    - now apply ends_with_newline_app. }
  rewrite main_one_argument.
  destruct (is_nil (net.ParseIP target)) eqn:Hip; cbn [negb].
  - rewrite (dispatch_output target _ _ _ (lookupFuncs_denote w target)).
    cbn [snd calls stdout add_stdout]. eexists. split.
    + rewrite string_app_assoc. reflexivity.
    + apply Hheader, output_of_lines.
  - unfold bind. rewrite lookupPTR_run, Hip, present_run.
    cbn [snd calls stdout add_stdout add_call]. eexists. split.
    + rewrite string_app_assoc. reflexivity.
    + apply Hheader, presented_lines.
Qed.
